(** * Deribit options collector: a shallow embedding of [collector.py]

    The development follows the class [DeribitDataCollector]:
    - Python values as they come out of [response.json()];
    - the two remote calls [get_instruments] and [get_orderbook];
    - record assembly and the collection loop of [collect_options_data];
    - the partition files: [get_daily_filename], [save_to_parquet],
      [load_data].

    Conventions, fixed once and for all:
    - JSON numbers are what [json] decodes them to: a Python [int], of
      any size, or a [float], a binary64 number;
    - a [pandas.DataFrame] is the list of its rows, and a Parquet file
      that can be read gives back the rows that were written;
    - the data directory is a finite map from file names to files, and
      a file name is the text of its bytes, in UTF-8;
    - [print] and [time.sleep] are recorded as events of the world;
    - the platform is Linux: the C library prints a year as it is, and
      file names are matched case by case. *)

From Stdlib Require Import ZArith PrimFloat SpecFloat FloatOps Ascii.
From stdpp Require Import base option list strings gmap sorting.

(** ** Python values *)

(** [datetime.datetime], naive (no time zone). *)
Record datetime := Datetime {
  year : N; month : N; day : N;
  hour : N; minute : N; second : N; microsecond : N
}.

#[warnings="-register-all"]
Inductive pyval :=
| PNone
| PBool (b : bool)
| PInt (z : Z)
| PFloat (f : float)
| PStr (s : string)
| PList (l : list pyval)
| PDict (kvs : list (string * pyval)).

Inductive exn :=
| KeyError (k : string)
| TypeError
| AttributeError
| ValueError
| ConnectionError
| HTTPError (status : nat)
| JSONDecodeError
| OverflowError
| ArrowException
| StorageError.

(** A computation that either returns or raises. *)
Inductive result (A : Type) :=
| Ok (a : A)
| Raise (e : exn).
Arguments Ok {A} a.
Arguments Raise {A} e.

Definition rbind {A B} (r : result A) (k : A → result B) : result B :=
  match r with
  | Ok a => k a
  | Raise e => Raise e
  end.

Declare Scope result_scope.
Delimit Scope result_scope with res.
Notation "'let?' x := r 'in' k" := (rbind r (fun x => k))
  (at level 10, x name, r at level 100, k at level 200) : result_scope.

Module Py.

(** [bool(v)]: Python truthiness. *)
Definition truthy (v : pyval) : bool :=
  match v with
  | PNone => false
  | PBool b => b
  | PInt z => negb (z =? 0)%Z
  | PFloat f => negb (f =? 0)%float
  | PStr s => negb (String.eqb s "")
  | PList l => match l with [] => false | _ => true end
  | PDict kvs => match kvs with [] => false | _ => true end
  end.

Fixpoint assoc (k : string) (kvs : list (string * pyval)) : option pyval :=
  match kvs with
  | [] => None
  | (k', v) :: rest => if String.eqb k k' then Some v else assoc k rest
  end.

(** [v[k]] with a string key. *)
Definition getitem (v : pyval) (k : string) : result pyval :=
  match v with
  | PDict kvs =>
      match assoc k kvs with
      | Some x => Ok x
      | None => Raise (KeyError k)
      end
  | _ => Raise TypeError
  end.

(** [v.get(k, default)]; only dictionaries have the method. *)
Definition get (v : pyval) (k : string) (default : pyval) : result pyval :=
  match v with
  | PDict kvs => Ok (from_option id default (assoc k kvs))
  | _ => Raise AttributeError
  end.

Inductive number :=
| Int (z : Z)
| Float (f : float).

(** A value used as a number: [bool] is a subclass of [int]. *)
Definition as_number (v : pyval) : option number :=
  match v with
  | PInt z => Some (Int z)
  | PFloat f => Some (Float f)
  | PBool b => Some (Int (Z.b2z b))
  | _ => None
  end.

(** The double nearest to [z * 2 ^ e], ties to even; [None] when it
    is beyond the largest double. *)
Definition nearest_double (z e : Z) : option float :=
  match binary_normalize prec emax z e false with
  | S754_infinity _ => None
  | sf => Some (SF2Prim sf)
  end.

(** [float(z)] as the arithmetic of [float] converts an [int]. *)
Definition float_of_int (z : Z) : result float :=
  match nearest_double z 0 with
  | Some f => Ok f
  | None => Raise OverflowError
  end.

(** [x + y]: the sum of two [int] is an [int]; with a [float] on
    either side the other side is converted and the sum is the sum of
    doubles, rounded, infinite when it overflows. *)
Definition add (x y : pyval) : result pyval :=
  match as_number x, as_number y with
  | Some (Int a), Some (Int b) => Ok (PInt (a + b))
  | Some (Float a), Some (Float b) => Ok (PFloat (a + b))
  | Some (Int a), Some (Float b) =>
      rbind (float_of_int a) (fun fa => Ok (PFloat (fa + b)))
  | Some (Float a), Some (Int b) =>
      rbind (float_of_int b) (fun fb => Ok (PFloat (a + fb)))
  | _, _ =>
      match x, y with
      | PStr a, PStr b => Ok (PStr (a +:+ b))
      | PList a, PList b => Ok (PList (a ++ b))
      | _, _ => Raise TypeError
      end
  end.

(** [x / 2]: true division. The quotient of an [int] is the double
    nearest to it, and [OverflowError] when there is none; the
    quotient of a [float] is the quotient of doubles. *)
Definition half (x : pyval) : result pyval :=
  match as_number x with
  | Some (Int a) =>
      match nearest_double a (-1) with
      | Some f => Ok (PFloat f)
      | None => Raise OverflowError
      end
  | Some (Float a) => Ok (PFloat (a / 2))
  | None => Raise TypeError
  end.

(** [len(v)]. *)
Definition len (v : pyval) : result nat :=
  match v with
  | PStr s => Ok (String.length s)
  | PList l => Ok (length l)
  | PDict kvs => Ok (length kvs)
  | _ => Raise TypeError
  end.

Fixpoint chars (s : string) : list pyval :=
  match s with
  | EmptyString => []
  | String c s' => PStr (String c EmptyString) :: chars s'
  end.

(** The items [for x in v] goes through. *)
Definition iter (v : pyval) : result (list pyval) :=
  match v with
  | PStr s => Ok (chars s)
  | PList l => Ok l
  | PDict kvs => Ok (map (fun kv => PStr (fst kv)) kvs)
  | _ => Raise TypeError
  end.

End Py.

(** ** The record built for one instrument

    The dictionary literal of [collect_options_data] has a fixed set of
    keys, so it is a record here; every field but [timestamp] holds
    whatever Python value the expression of that key evaluates to. *)
Record record := Record_ {
  timestamp : datetime;
  instrument_name : pyval;
  expiration_timestamp : pyval;
  strike : pyval;
  option_type : pyval;
  mark_price : pyval;
  last_price : pyval;
  bid_price : pyval;
  ask_price : pyval;
  mid_price : pyval;
  delta : pyval;
  gamma : pyval;
  vega : pyval;
  theta : pyval;
  rho : pyval;
  mark_iv : pyval;
  bid_iv : pyval;
  ask_iv : pyval;
  open_interest : pyval;
  volume_24h : pyval;
  underlying_price : pyval;
  underlying_index : pyval
}.

Section Assembly.
Local Open Scope result_scope.

(** [orderbook[k] if orderbook.get(k) else None] *)
Definition price_or_none (orderbook : pyval) (k : string) : result pyval :=
  let? probe := Py.get orderbook k PNone in
  if Py.truthy probe then Py.getitem orderbook k else Ok PNone.

(** The expression of key ['mid_price'] (line 120). *)
Definition mid_price_of (orderbook : pyval) : result pyval :=
  let? bid := Py.get orderbook "best_bid_price" PNone in
  let? both :=
    (if Py.truthy bid
     then let? ask := Py.get orderbook "best_ask_price" PNone in
          Ok (Py.truthy ask)
     else Ok false) in
  if (both : bool) then
    let? b := Py.get orderbook "best_bid_price" (PInt 0) in
    let? a := Py.get orderbook "best_ask_price" (PInt 0) in
    let? s := Py.add b a in
    Py.half s
  else Ok PNone.

(** [orderbook.get(outer, {}).get(inner)] *)
Definition nested_get (orderbook : pyval) (outer inner : string)
  : result pyval :=
  let? sub := Py.get orderbook outer (PDict []) in
  Py.get sub inner PNone.

(** The dictionary literal of lines 108-141, its keys evaluated in
    source order; [now] is the value [datetime.now()] returned. *)
Definition assemble (now : datetime) (name instrument orderbook : pyval)
  : result record :=
  let? expiration := Py.getitem instrument "expiration_timestamp" in
  let? strike_ := Py.getitem instrument "strike" in
  let? kind := Py.getitem instrument "option_type" in
  let? mark := Py.get orderbook "mark_price" PNone in
  let? last_ := Py.get orderbook "last_price" PNone in
  let? bid := price_or_none orderbook "best_bid_price" in
  let? ask := price_or_none orderbook "best_ask_price" in
  let? mid := mid_price_of orderbook in
  let? delta_ := nested_get orderbook "greeks" "delta" in
  let? gamma_ := nested_get orderbook "greeks" "gamma" in
  let? vega_ := nested_get orderbook "greeks" "vega" in
  let? theta_ := nested_get orderbook "greeks" "theta" in
  let? rho_ := nested_get orderbook "greeks" "rho" in
  let? miv := Py.get orderbook "mark_iv" PNone in
  let? biv := Py.get orderbook "bid_iv" PNone in
  let? aiv := Py.get orderbook "ask_iv" PNone in
  let? oi := Py.get orderbook "open_interest" PNone in
  let? vol := nested_get orderbook "stats" "volume" in
  let? uprice := Py.get orderbook "underlying_price" PNone in
  let? uindex := Py.get orderbook "underlying_index" PNone in
  Ok {| timestamp := now;
        instrument_name := name;
        expiration_timestamp := expiration;
        strike := strike_;
        option_type := kind;
        mark_price := mark;
        last_price := last_;
        bid_price := bid;
        ask_price := ask;
        mid_price := mid;
        delta := delta_;
        gamma := gamma_;
        vega := vega_;
        theta := theta_;
        rho := rho_;
        mark_iv := miv;
        bid_iv := biv;
        ask_iv := aiv;
        open_interest := oi;
        volume_24h := vol;
        underlying_price := uprice;
        underlying_index := uindex |}.
End Assembly.

(** ** The world the collector runs in *)

(** What was written with [to_parquet]; a file that [read_parquet]
    cannot read is [Unreadable]. *)
Inductive file :=
| Parquet (rows : list record)
| Unreadable.

Inductive request :=
| GetInstruments (currency kind expired : string)
| GetOrderBook (name : pyval).

(** [requests.get] either raises or returns a response with a status
    code and a body, which is JSON or not. *)
Inductive response :=
| NoResponse
| Response (status_code : nat) (body : option pyval).

Inductive msg :=
| MsgStarting (currency : string)
| MsgFound (n : nat)
| MsgProcessed (done total : nat)
| MsgDone (n : nat)
| MsgErrorInstruments (e : exn)
| MsgErrorFor (name : pyval) (e : exn)
| MsgNoDataToSave
| MsgAppended (filename : string)
| MsgCreated (filename : string)
| MsgTotalInFile (n : nat)
| MsgNoSavedData
| MsgLoaded (filename : string) (n : nat)
| MsgTotalLoaded (n : nat).

Inductive event :=
| Print (m : msg)
| Sleep (milliseconds : nat).

(** [clock] and [remote] are what the outside answers to the n-th
    reading of the wall clock and to the n-th request; [readings] and
    [sent] count how many were made. [files] is the data directory and
    [events] the lines printed and the pauses taken, oldest first.
    [convertible] is the judgement of the Parquet library on a frame:
    whether it can be turned into a table, which asks that each column
    holds values of one type (a column that mixes a number and a text
    cannot). *)
Record world := World {
  clock : nat → datetime;
  readings : nat;
  remote : nat → request → response;
  sent : nat;
  files : gmap string file;
  events : list event;
  convertible : list record → bool
}.

Definition M (A : Type) : Type := world → result A * world.

Definition ret {A} (a : A) : M A := fun w => (Ok a, w).

Definition bind {A B} (c : M A) (k : A → M B) : M B :=
  fun w =>
    match c w with
    | (Ok a, w') => k a w'
    | (Raise e, w') => (Raise e, w')
    end.

Definition lift {A} (r : result A) : M A := fun w => (r, w).

Declare Scope io_scope.
Delimit Scope io_scope with io.
Notation "x <- c ;; k" := (bind c (fun x => k))
  (at level 100, c at next level, right associativity) : io_scope.
Notation "c ;; k" := (bind c (fun _ => k))
  (at level 100, right associativity) : io_scope.

Definition emit (e : event) : M unit :=
  fun w => (Ok tt, World (clock w) (readings w) (remote w) (sent w)
                         (files w) (events w ++ [e]) (convertible w)).

Definition print (m : msg) : M unit := emit (Print m).

(** [time.sleep(s)], in milliseconds. *)
Definition sleep (ms : nat) : M unit := emit (Sleep ms).

(** [datetime.now()] *)
Definition now : M datetime :=
  fun w => (Ok (clock w (readings w)),
            World (clock w) (S (readings w)) (remote w) (sent w)
                  (files w) (events w) (convertible w)).

(** [requests.get(url, params=params)] *)
Definition requests_get (req : request) : M response :=
  fun w => (Ok (remote w (sent w) req),
            World (clock w) (readings w) (remote w) (S (sent w))
                  (files w) (events w) (convertible w)).

(** [filename.exists()] *)
Definition exists_ (filename : string) : M bool :=
  fun w => (Ok (bool_decide (is_Some (files w !! filename))), w).

(** [pd.read_parquet(filename)] *)
Definition read_parquet (filename : string) : M (list record) :=
  fun w =>
    match files w !! filename with
    | Some (Parquet rows) => (Ok rows, w)
    | Some Unreadable => (Raise StorageError, w)
    | None => (Raise StorageError, w)
    end.

(** [df.to_parquet(filename, compression='snappy', index=False)]: the
    frame is converted to a table first, and the file is written from
    the table; a frame that cannot be converted raises before the
    file is opened. *)
Definition to_parquet (filename : string) (df : list record) : M unit :=
  fun w =>
    if convertible w df then
      (Ok tt, World (clock w) (readings w) (remote w) (sent w)
                    (<[filename := Parquet df]> (files w)) (events w)
                    (convertible w))
    else (Raise ArrowException, w).

(** ** The snapshot client *)

(** The three statements inside [try]: the request, then
    [raise_for_status()], then [response.json()['result']]. *)
Definition result_of (r : response) : result pyval :=
  match r with
  | NoResponse => Raise ConnectionError
  | Response status body =>
      if ((400 <=? status) && (status <? 600))%nat then Raise (HTTPError status)
      else match body with
           | None => Raise JSONDecodeError
           | Some json => Py.getitem json "result"
           end
  end.

Section Collector.
Local Open Scope io_scope.

(** [self.currency]; [self.data_dir] is [files] of the world. *)
Variable currency : string.

Definition get_instruments (kind : string) (expired : bool) : M pyval :=
  response <- requests_get
    (GetInstruments currency kind (if negb expired then "false" else "true"));;
  match result_of response with
  | Ok instruments => ret instruments
  | Raise e => print (MsgErrorInstruments e);; ret (PList [])
  end.

Definition get_orderbook (name : pyval) : M pyval :=
  response <- requests_get (GetOrderBook name);;
  match result_of response with
  | Ok orderbook => ret orderbook
  | Raise e => print (MsgErrorFor name e);; ret PNone
  end.

(** One turn of the [for] loop of [collect_options_data]: [data] is
    the list so far, and the turn returns it after the turn. *)
Definition collect_one (total idx : nat) (instrument : pyval)
    (data : list record) : M (list record) :=
  name <- lift (Py.getitem instrument "instrument_name");;
  orderbook <- get_orderbook name;;
  data' <- (if Py.truthy orderbook then
              stamp <- now;;
              row <- lift (assemble stamp name instrument orderbook);;
              ret (data ++ [row])
            else ret data);;
  (if ((idx + 1) mod 10 =? 0)%nat then
     print (MsgProcessed (idx + 1) total);; sleep 500
   else ret tt);;
  ret data'.

Fixpoint collect_loop (total idx : nat) (instruments : list pyval)
    (data : list record) : M (list record) :=
  match instruments with
  | [] => ret data
  | instrument :: rest =>
      data' <- collect_one total idx instrument data;;
      collect_loop total (S idx) rest data'
  end.

Definition collect_options_data : M (list record) :=
  print (MsgStarting currency);;
  instruments <- get_instruments "option" false;;
  total <- lift (Py.len instruments);;
  print (MsgFound total);;
  items <- lift (Py.iter instruments);;
  data <- collect_loop total 0 items [];;
  print (MsgDone (length data));;
  ret data.

End Collector.

(** ** Dates and partition file names *)

Module Date.

Definition is_leap (y : N) : bool :=
  ((y mod 4 =? 0) && negb (y mod 100 =? 0) || (y mod 400 =? 0))%N.

Definition days_in_month (y m : N) : N :=
  match m with
  | 2 => if is_leap y then 29 else 28
  | 4 | 6 | 9 | 11 => 30
  | _ => 31
  end%N.

(** The values the constructor of [datetime] accepts. *)
Definition valid (d : datetime) : bool :=
  ((1 <=? year d) && (year d <=? 9999) &&
   (1 <=? month d) && (month d <=? 12) &&
   (1 <=? day d) && (day d <=? days_in_month (year d) (month d)) &&
   (hour d <? 24) && (minute d <? 60) && (second d <? 60) &&
   (microsecond d <? 1000000))%N.

Definition midnight (y m d : N) : datetime := Datetime y m d 0 0 0 0.

(** The calendar day of an instant: [d.replace(hour=0, ...)]. *)
Definition floor (d : datetime) : datetime :=
  midnight (year d) (month d) (day d).

Definition lex (c1 c2 : comparison) : comparison :=
  match c1 with Eq => c2 | _ => c1 end.

(** Comparison of naive datetimes: field by field. *)
Definition compare (a b : datetime) : comparison :=
  lex (year a ?= year b)%N
 (lex (month a ?= month b)%N
 (lex (day a ?= day b)%N
 (lex (hour a ?= hour b)%N
 (lex (minute a ?= minute b)%N
 (lex (second a ?= second b)%N
      (microsecond a ?= microsecond b)%N))))).

Definition ltb (a b : datetime) : bool :=
  match compare a b with Lt => true | _ => false end.

Definition digit (n : N) : Ascii.ascii := Ascii.ascii_of_N (48 + n mod 10).

(** [n] in decimal on [width] digits, as [%04d] and [%02d] print a
    number below [10 ^ width]. *)
Fixpoint zero_padded (width : nat) (n : N) : string :=
  match width with
  | O => ""
  | S w =>
      String (digit (n / 10 ^ N.of_nat w)%N)
             (zero_padded w (n mod 10 ^ N.of_nat w)%N)
  end.

(** The number of digits of a year, for the years a [datetime] can
    hold (1 to 9999). *)
Definition year_width (y : N) : nat :=
  if (y <? 10)%N then 1
  else if (y <? 100)%N then 2
  else if (y <? 1000)%N then 3
  else 4.

(** [%Y] as the C library prints it: the year in decimal, with no
    padding, so a year before 1000 takes fewer than four digits. *)
Definition year_text (y : N) : string := zero_padded (year_width y) y.

(** [date.strftime('%Y%m%d')] *)
Definition strftime_Ymd (d : datetime) : string :=
  year_text (year d) +:+ zero_padded 2 (month d)
    +:+ zero_padded 2 (day d).

(** The value of one of the characters [0] to [9]. *)
Definition digit_value (c : Ascii.ascii) : option N :=
  N.of_nat <$> Ascii.is_nat c.

(** What follows the first byte of a character of several bytes. *)
Definition continuation (c : Ascii.ascii) : option N :=
  let b := Ascii.N_of_ascii c in
  if ((128 <=? b) && (b <? 192))%N then Some (b - 128)%N else None.

(** The first character of a text, as a code point, and the text after
    it. A byte that starts no character of UTF-8 is a character of its
    own, the lone surrogate that [surrogateescape] gives it. *)
Definition decode (s : string) : option (N * string) :=
  match s with
  | EmptyString => None
  | String c0 rest0 =>
      let b0 := Ascii.N_of_ascii c0 in
      let escaped := Some ((56320 + b0)%N, rest0) in
      if (b0 <? 128)%N then Some (b0, rest0)
      else
        match rest0 with
        | String c1 rest1 =>
            match continuation c1 with
            | Some x1 =>
                if ((194 <=? b0) && (b0 <? 224))%N then
                  Some (((b0 - 192) * 64 + x1)%N, rest1)
                else
                  match rest1 with
                  | String c2 rest2 =>
                      match continuation c2 with
                      | Some x2 =>
                          if ((224 <=? b0) && (b0 <? 240))%N then
                            let cp := ((b0 - 224) * 4096 + x1 * 64 + x2)%N in
                            if ((2048 <=? cp)
                                && negb ((55296 <=? cp) && (cp <? 57344)))%N
                            then Some (cp, rest2) else escaped
                          else
                            match rest2 with
                            | String c3 rest3 =>
                                match continuation c3 with
                                | Some x3 =>
                                    let cp := ((b0 - 240) * 262144 + x1 * 4096
                                               + x2 * 64 + x3)%N in
                                    if ((240 <=? b0) && (b0 <? 245)
                                        && (65536 <=? cp) && (cp <? 1114112))%N
                                    then Some (cp, rest3) else escaped
                                | None => escaped
                                end
                            | EmptyString => escaped
                            end
                      | None => escaped
                      end
                  | EmptyString => escaped
                  end
            | None => escaped
            end
        | EmptyString => escaped
        end
  end.

(** The code points of the digits zero of Unicode 14, the version of
    Python 3.11; the digits one to nine of each follow it. These are
    the characters of category [Nd], which [\d] matches and [int]
    reads. *)
Definition decimal_zeros : list N :=
  [48; 1632; 1776; 1984; 2406; 2534; 2662; 2790; 2918; 3046; 3174; 3302;
   3430; 3558; 3664; 3792; 3872; 4160; 4240; 6112; 6160; 6470; 6608; 6784;
   6800; 6992; 7088; 7232; 7248; 42528; 43216; 43264; 43472; 43504; 43600;
   44016; 65296; 66720; 68912; 69734; 69872; 69942; 70096; 70384; 70736;
   70864; 71248; 71360; 71472; 71904; 72016; 72784; 73040; 73120; 92768;
   92864; 93008; 120782; 120792; 120802; 120812; 120822; 123200; 123632;
   125264; 130032]%N.

(** The value of a code point as a decimal digit. *)
Definition decimal_value (cp : N) : option N :=
  (fun zero => (cp - zero)%N)
    <$> List.find (fun zero => ((zero <=? cp) && (cp <? zero + 10))%N)
          decimal_zeros.

(** One [\d]: the value of the decimal digit a text starts with, and
    the text after it. *)
Definition read_digit (s : string) : option (N * string) :=
  match decode s with
  | Some (cp, rest) =>
      match decimal_value cp with
      | Some v => Some (v, rest)
      | None => None
      end
  | None => None
  end.

(** The alternatives of the directive [%m], in the order the parser
    tries them: [1[0-2]], [0[1-9]], [[1-9]]. Each gives the month
    read and the rest of the text. *)
Definition month_alternatives (s : string) : list (N * string) :=
  match s with
  | String c1 rest1 =>
      match digit_value c1 with
      | Some a =>
          (match rest1 with
           | String c2 rest2 =>
               match digit_value c2 with
               | Some b =>
                   (if ((a =? 1) && (b <=? 2))%N
                    then [((10 + b)%N, rest2)] else []) ++
                   (if ((a =? 0) && (1 <=? b))%N
                    then [(b, rest2)] else [])
               | None => []
               end
           | EmptyString => []
           end) ++
          (if (1 <=? a)%N then [(a, rest1)] else [])
      | None => []
      end
  | EmptyString => []
  end.

(** The alternatives of [%d]: [3[01]], [[12]\d], [0[1-9]], [[1-9]],
    and a space followed by [[1-9]]. Only [\d] takes a digit that is
    not one of the characters [0] to [9]. *)
Definition day_alternatives (s : string) : list (N * string) :=
  match s with
  | String c1 rest1 =>
      match digit_value c1 with
      | Some a =>
          (match rest1 with
           | String c2 rest2 =>
               match digit_value c2 with
               | Some b =>
                   if ((a =? 3) && (b <=? 1))%N
                   then [((30 + b)%N, rest2)] else []
               | None => []
               end
           | EmptyString => []
           end) ++
          (if ((1 <=? a) && (a <=? 2))%N then
             match read_digit rest1 with
             | Some (b, rest2) => [((10 * a + b)%N, rest2)]
             | None => []
             end
           else []) ++
          (match rest1 with
           | String c2 rest2 =>
               match digit_value c2 with
               | Some b =>
                   if ((a =? 0) && (1 <=? b))%N
                   then [(b, rest2)] else []
               | None => []
               end
           | EmptyString => []
           end) ++
          (if (1 <=? a)%N then [(a, rest1)] else [])
      | None =>
          if Ascii.eqb c1 " "%char then
            match rest1 with
            | String c2 rest2 =>
                match digit_value c2 with
                | Some b => if (1 <=? b)%N then [(b, rest2)] else []
                | None => []
                end
            | EmptyString => []
            end
          else []
      end
  | EmptyString => []
  end.

(** The first way to read a month and then a day. *)
Definition month_then_day (s : string) : option (N * N * string) :=
  head (m_rest ← month_alternatives s;
        d_rest ← day_alternatives (snd m_rest);
        [(fst m_rest, fst d_rest, snd d_rest)]).

(** The four [\d] of [%Y]: the year read and the rest of the text. *)
Definition four_digits (s : string) : option (N * string) :=
  match read_digit s with
  | Some (a, s1) =>
      match read_digit s1 with
      | Some (b, s2) =>
          match read_digit s2 with
          | Some (c, s3) =>
              match read_digit s3 with
              | Some (d, rest) =>
                  Some ((1000 * a + 100 * b + 10 * c + d)%N, rest)
              | None => None
              end
          | None => None
          end
      | None => None
      end
  | None => None
  end.

(** [datetime.strptime(s, '%Y%m%d')]: four digits of year, a month,
    a day, nothing left over, and a date that exists. *)
Definition strptime_Ymd (s : string) : result datetime :=
  match four_digits s with
  | Some (y, rest) =>
      match month_then_day rest with
      | Some (m, dd, EmptyString) =>
          let candidate := midnight y m dd in
          if valid candidate then Ok candidate else Raise ValueError
      | _ => Raise ValueError
      end
  | None => Raise ValueError
  end.

(** A date that exists and whose year takes four digits. *)
Definition four_digit_year (d : datetime) : bool :=
  valid d && (1000 <=? year d)%N.

End Date.

Module Path.

(** [name.rfind('.')] *)
Fixpoint rfind_dot (name : string) : option nat :=
  match name with
  | EmptyString => None
  | String c rest =>
      match rfind_dot rest with
      | Some i => Some (S i)
      | None => if Ascii.eqb c "."%char then Some 0 else None
      end
  end.

(** [path.stem]: the name without its last suffix; a leading or a
    trailing dot does not start a suffix. *)
Definition stem (name : string) : string :=
  match rfind_dot name with
  | Some i =>
      if ((0 <? i) && (i <? String.length name - 1))%nat
      then String.substring 0 i name
      else name
  | None => name
  end.

(** [s.split('_')] *)
Fixpoint split_underscore (s : string) : list string :=
  match s with
  | EmptyString => [""]
  | String c rest =>
      if Ascii.eqb c "_"%char then "" :: split_underscore rest
      else match split_underscore rest with
           | field :: fields => String c field :: fields
           | [] => [String c ""]
           end
  end.

(** [s.split('_')[-1]] *)
Definition last_field (s : string) : string :=
  List.last (split_underscore s) "".

Fixpoint ends_with (suffix s : string) : bool :=
  String.eqb s suffix ||
  match s with
  | EmptyString => false
  | String _ rest => ends_with suffix rest
  end.

(** No character of the text is special in a pattern of [glob], and
    none separates the parts of a path. *)
Fixpoint literal (s : string) : bool :=
  match s with
  | EmptyString => true
  | String c rest =>
      negb (Ascii.eqb c "*"%char) && negb (Ascii.eqb c "?"%char) &&
      negb (Ascii.eqb c "["%char) && negb (Ascii.eqb c "/"%char) &&
      literal rest
  end.

(** Every byte of the text is a character of ASCII. *)
Fixpoint ascii_only (s : string) : bool :=
  match s with
  | EmptyString => true
  | String c rest => (Ascii.N_of_ascii c <? 128)%N && ascii_only rest
  end.

(** Whether [name] matches the pattern [prefix*suffix], for a
    [prefix] and a [suffix] that are [literal]. *)
Definition matches (pre suffix name : string) : bool :=
  String.prefix pre name &&
  ends_with suffix (String.substring (String.length pre)
                      (String.length name - String.length pre) name).

End Path.

(** ** The partition store *)

Section Store.
Local Open Scope io_scope.

Variable currency : string.

(** The name of the partition file of a day, inside the data
    directory. *)
Definition partition_name (date : datetime) : string :=
  currency +:+ "_options_" +:+ Date.strftime_Ymd date +:+ ".parquet".

Definition get_daily_filename (date : option datetime) : M string :=
  date' <- match date with
           | None => now
           | Some d => ret d
           end;;
  ret (partition_name date').

(** Returns the path of the file, or [None] when there was nothing
    to save. *)
Definition save_to_parquet (df : list record) : M (option string) :=
  match df with
  | [] => print MsgNoDataToSave;; ret None
  | _ :: _ =>
      filename <- get_daily_filename None;;
      present <- exists_ filename;;
      df' <- (if (present : bool) then
                existing_df <- read_parquet filename;;
                print (MsgAppended filename);;
                ret (existing_df ++ df)
              else
                print (MsgCreated filename);;
                ret df);;
      to_parquet filename df';;
      print (MsgTotalInFile (length df'));;
      ret (Some filename)
  end.

(** [self.data_dir.glob(f'{currency}_options_*.parquet')] for a
    currency symbol that is [Path.literal], so that the only wildcard
    of the pattern is the star before the suffix: the names of the
    directory that match, in the order the directory lists them. A
    symbol that holds a wildcard or a separator makes another pattern,
    which this listing does not describe. *)
Definition glob (directory : gmap string file) : list string :=
  filter (fun name =>
            Path.matches (currency +:+ "_options_") ".parquet" name = true)
         (map fst (map_to_list directory)).

(** [sorted(...)] of it: paths of one directory are ordered as their
    names, which are ordered as strings. *)
Definition glob_sorted : M (list string) :=
  fun w => (Ok (merge_sort String.le (glob (files w))), w).

(** The date test of the loop of [load_data]: [true] when the file is
    to be skipped ([continue]). *)
Definition out_of_range (start_date end_date : option datetime)
    (filename : string) : result bool :=
  match start_date, end_date with
  | None, None => Ok false
  | _, _ =>
      match Date.strptime_Ymd (Path.last_field (Path.stem filename)) with
      | Raise e => Raise e
      | Ok file_date =>
          if match start_date with
             | Some s => Date.ltb file_date s
             | None => false
             end
          then Ok true
          else Ok match end_date with
                  | Some e => Date.ltb e file_date
                  | None => false
                  end
      end
  end.

Fixpoint load_loop (start_date end_date : option datetime)
    (names : list string) (dfs : list (list record))
    : M (list (list record)) :=
  match names with
  | [] => ret dfs
  | name :: rest =>
      skip <- lift (out_of_range start_date end_date name);;
      if (skip : bool) then load_loop start_date end_date rest dfs
      else
        df <- read_parquet name;;
        print (MsgLoaded name (length df));;
        load_loop start_date end_date rest (dfs ++ [df])
  end.

Definition load_data (start_date end_date : option datetime)
    : M (list record) :=
  names <- glob_sorted;;
  match names with
  | [] => print MsgNoSavedData;; ret []
  | _ :: _ =>
      dfs <- load_loop start_date end_date names [];;
      match dfs with
      | _ :: _ =>
          let result := concat dfs in
          print (MsgTotalLoaded (length result));;
          ret result
      | [] => ret []
      end
  end.

End Store.

(** * Vocabulary of the properties *)

(** The value a record field holds for what upstream reported under
    a key: the value itself, [None] for a key that is not there. *)
Definition stored (reported : option pyval) : pyval :=
  from_option id PNone reported.

(** What upstream reported under [inner] of the object under
    [outer]. *)
Definition nested (kvs : list (string * pyval)) (outer inner : string)
  : option pyval :=
  match Py.assoc outer kvs with
  | Some (PDict sub) => Py.assoc inner sub
  | _ => None
  end.

(** The instrument has the keys the loop reads. *)
Definition instrument_ok (instrument : pyval) : bool :=
  match instrument with
  | PDict kvs =>
      bool_decide (is_Some (Py.assoc "instrument_name" kvs)) &&
      bool_decide (is_Some (Py.assoc "expiration_timestamp" kvs)) &&
      bool_decide (is_Some (Py.assoc "strike" kvs)) &&
      bool_decide (is_Some (Py.assoc "option_type" kvs))
  | _ => false
  end.

Definition object_or_absent (reported : option pyval) : bool :=
  match reported with
  | None | Some (PDict _) => true
  | Some _ => false
  end.

(** The number has a nearest double. *)
Definition fits (z e : Z) : bool :=
  bool_decide (is_Some (Py.nearest_double z e)).

(** Two values have a mean in the arithmetic of Python: both are
    numbers, an [int] met by a [float] has a nearest double, and so
    has half the sum of two [int]. *)
Definition mean_defined (bid ask : pyval) : bool :=
  match Py.as_number bid, Py.as_number ask with
  | Some (Py.Int b), Some (Py.Int a) => fits (b + a) (-1)
  | Some (Py.Int b), Some (Py.Float _) => fits b 0
  | Some (Py.Float _), Some (Py.Int a) => fits a 0
  | Some (Py.Float _), Some (Py.Float _) => true
  | _, _ => false
  end.

(** The snapshot is an object whose [greeks] and [stats], when there,
    are objects, and whose best bid and best ask have a mean when
    both are truthy. *)
Definition snapshot_ok (orderbook : pyval) : bool :=
  match orderbook with
  | PDict kvs =>
      object_or_absent (Py.assoc "greeks" kvs) &&
      object_or_absent (Py.assoc "stats" kvs) &&
      let bid := stored (Py.assoc "best_bid_price" kvs) in
      let ask := stored (Py.assoc "best_ask_price" kvs) in
      (negb (Py.truthy bid && Py.truthy ask) || mean_defined bid ask)
  | _ => false
  end.

(** [(bid + ask) / 2] where it has a value. *)
Definition mean_of (bid ask : pyval) : pyval :=
  match Py.add bid ask with
  | Ok sum =>
      match Py.half sum with
      | Ok mean => mean
      | Raise _ => PNone
      end
  | Raise _ => PNone
  end.

(** The value of the expression of ['mid_price'] on an object. *)
Definition mid_of (kvs : list (string * pyval)) : pyval :=
  let bid := stored (Py.assoc "best_bid_price" kvs) in
  let ask := stored (Py.assoc "best_ask_price" kvs) in
  if Py.truthy bid && Py.truthy ask then mean_of bid ask else PNone.

(** What [get_orderbook] returns for the request number [n]. *)
Definition orderbook_of (answers : nat → request → response) (n : nat)
    (name : pyval) : pyval :=
  match result_of (answers n (GetOrderBook name)) with
  | Ok orderbook => orderbook
  | Raise _ => PNone
  end.

Definition name_of (instrument : pyval) : pyval :=
  match Py.getitem instrument "instrument_name" with
  | Ok name => name
  | Raise _ => PNone
  end.

(** The fetch of the instrument, made as request number [n], returned
    data: no failure, and a snapshot that is not empty. *)
Definition has_data (answers : nat → request → response) (n : nat)
    (instrument : pyval) : bool :=
  Py.truthy (orderbook_of answers n (name_of instrument)).

(** The instruments of a batch whose fetch returned data, in the
    order of the batch; the first fetch is request number [n]. *)
Fixpoint with_data (answers : nat → request → response) (n : nat)
    (instruments : list pyval) : list pyval :=
  match instruments with
  | [] => []
  | instrument :: rest =>
      if has_data answers n instrument
      then instrument :: with_data answers (S n) rest
      else with_data answers (S n) rest
  end.

(** Every instrument of the batch has its keys, and every snapshot
    that comes back is well formed. *)
Fixpoint batch_ok (answers : nat → request → response) (n : nat)
    (instruments : list pyval) : bool :=
  match instruments with
  | [] => true
  | instrument :: rest =>
      instrument_ok instrument &&
      (negb (has_data answers n instrument) ||
       snapshot_ok (orderbook_of answers n (name_of instrument))) &&
      batch_ok answers (S n) rest
  end.

(** The day of [a] comes before the day of [b]. *)
Definition day_lt (a b : datetime) : Prop :=
  Date.compare (Date.floor a) (Date.floor b) = Lt.

(** The partition of day [d] passes the date test of [load_data]:
    midnight of [d] is neither before the start nor after the end. *)
Definition in_range (start_date end_date : option datetime)
    (d : datetime) : bool :=
  negb (match start_date with
        | Some s => Date.ltb (Date.floor d) s
        | None => false
        end) &&
  negb (match end_date with
        | Some e => Date.ltb e (Date.floor d)
        | None => false
        end).

(** The range read by calendar day: the day of the partition lies
    between the day of the start and the day of the end, both
    included. *)
Definition in_day_range (s e d : datetime) : bool :=
  negb (Date.ltb (Date.floor d) (Date.floor s)) &&
  negb (Date.ltb (Date.floor e) (Date.floor d)).

Section Partitions.

Variable currency : string.

(** The partition file the next call of [save_to_parquet] targets. *)
Definition target (w : world) : string :=
  partition_name currency (clock w (readings w)).

(** The rows of the partition of day [d] in a directory. *)
Definition rows_of (directory : gmap string file) (d : datetime)
  : list record :=
  match directory !! partition_name currency d with
  | Some (Parquet rows) => rows
  | _ => []
  end.

Definition readable (directory : gmap string file) (d : datetime) : bool :=
  match directory !! partition_name currency d with
  | Some (Parquet _) => true
  | _ => false
  end.

End Partitions.

(** ** Sample inputs *)

Definition sample_day : datetime := Date.midnight 2024 1 15.

Definition sample_instrument (name : string) : pyval :=
  PDict [("instrument_name", PStr name);
         ("expiration_timestamp", PInt 1711699200000);
         ("strike", PFloat 60000);
         ("option_type", PStr "call")].

(** A snapshot with an empty bid side, as the exchange reports it:
    best bid zero, best ask 5. *)
Definition snapshot_no_bid : pyval :=
  PDict [("best_bid_price", PFloat 0); ("best_ask_price", PFloat 5);
         ("mark_price", PFloat 0)].

Definition snapshot_two_sided : pyval :=
  PDict [("best_bid_price", PFloat 4); ("best_ask_price", PFloat 6);
         ("greeks", PDict [("delta", PFloat 0)])].

Definition sample_world (answers : nat → request → response)
    (directory : gmap string file) : world :=
  World (fun _ => sample_day) 0 answers 0 directory [] (fun _ => true).

(** The network is down. *)
Definition world_offline : world :=
  sample_world (fun _ _ => NoResponse) ∅.

(** Upstream answers that there is no instrument. *)
Definition world_no_instruments : world :=
  sample_world
    (fun _ _ => Response 200 (Some (PDict [("result", PList [])]))) ∅.

(** Three instruments: the fetch of X fails on the network, upstream
    has no order book for Z, and Y comes back with a snapshot. *)
Definition world_x_fails_y_answers : world :=
  sample_world
    (fun _ req =>
       match req with
       | GetInstruments _ _ _ =>
           Response 200
             (Some (PDict [("result",
                            PList [sample_instrument "X";
                                   sample_instrument "Z";
                                   sample_instrument "Y"])]))
       | GetOrderBook (PStr name) =>
           if String.eqb name "Y" then
             Response 200 (Some (PDict [("result", snapshot_two_sided)]))
           else if String.eqb name "Z" then
             Response 200 (Some (PDict [("result", PNone)]))
           else NoResponse
       | GetOrderBook _ => NoResponse
       end)
    ∅.

(** Upstream has no order book for Z; X and Y come back with a
    snapshot. *)
Definition world_z_missing : world :=
  sample_world
    (fun _ req =>
       match req with
       | GetInstruments _ _ _ =>
           Response 200
             (Some (PDict [("result",
                            PList [sample_instrument "X";
                                   sample_instrument "Z";
                                   sample_instrument "Y"])]))
       | GetOrderBook (PStr name) =>
           if String.eqb name "Z" then
             Response 200 (Some (PDict [("result", PDict [])]))
           else
             Response 200 (Some (PDict [("result", snapshot_two_sided)]))
       | GetOrderBook _ => NoResponse
       end)
    ∅.

Definition sample_row (name : string) (stamp : datetime) : record :=
  {| timestamp := stamp;
     instrument_name := PStr name;
     expiration_timestamp := PInt 1711699200000;
     strike := PFloat 60000;
     option_type := PStr "call";
     mark_price := PFloat 0; last_price := PNone;
     bid_price := PNone; ask_price := PFloat 5; mid_price := PNone;
     delta := PNone; gamma := PNone; vega := PNone; theta := PNone;
     rho := PNone;
     mark_iv := PNone; bid_iv := PNone; ask_iv := PNone;
     open_interest := PNone; volume_24h := PNone;
     underlying_price := PNone; underlying_index := PNone |}.

Definition jan14 : datetime := Date.midnight 2024 1 14.
Definition jan15 : datetime := Date.midnight 2024 1 15.
Definition jan16 : datetime := Date.midnight 2024 1 16.
Definition mar01 : datetime := Date.midnight 2024 3 1.

(** The file of 1 March was created before the file of 15 January;
    a file of another currency lies next to them. *)
Definition world_march_first : world :=
  sample_world (fun _ _ => NoResponse)
    (<["BTC_options_20240115.parquet" := Parquet [sample_row "A" jan15]]>
       (<["ETH_options_20240101.parquet" := Parquet [sample_row "E" jan14]]>
          (<["BTC_options_20240301.parquet" := Parquet [sample_row "B" mar01]]>
             ∅))).

Definition world_three_days : world :=
  sample_world (fun _ _ => NoResponse)
    (<["BTC_options_20240116.parquet" := Parquet [sample_row "C" jan16]]>
       (<["BTC_options_20240114.parquet" := Parquet [sample_row "A" jan14]]>
          (<["BTC_options_20240115.parquet" := Parquet [sample_row "B" jan15]]>
             ∅))).

(** The partition file of the day is there and cannot be read. *)
Definition world_unreadable : world :=
  sample_world (fun _ _ => NoResponse)
    (<["BTC_options_20240115.parquet" := Unreadable]> ∅).


(** ** One cycle, and the frame of a computation *)

(** The two statements of a collection cycle, as the loop of
    [periodic_collection] (lines 258-259) and the main script
    (lines 273-276) run them: collect, then save what was collected. *)
Definition cycle (currency : string) : M (option string) :=
  (df <- collect_options_data currency;;
   save_to_parquet currency df)%io.

(** A computation leaves a component of the world as it found it,
    whether it returns or raises. *)
Definition keeps {A B : Type} (component : world → B) (c : M A) : Prop :=
  ∀ w, component (snd (c w)) = component w.

(** The pauses among the events, in milliseconds, oldest first. *)
Definition pauses (evs : list event) : list nat :=
  omap (fun e => match e with Sleep ms => Some ms | Print _ => None end) evs.

(** The instrument has the keys record assembly reads. *)
Definition has_contract_keys (instrument : pyval) : bool :=
  match instrument with
  | PDict kvs =>
      bool_decide (is_Some (Py.assoc "expiration_timestamp" kvs)) &&
      bool_decide (is_Some (Py.assoc "strike" kvs)) &&
      bool_decide (is_Some (Py.assoc "option_type" kvs))
  | _ => false
  end.

(** A clock that advances by one second at each reading. *)
Definition ticking (n : nat) : datetime :=
  Datetime 2024 1 15 10 0 (N.of_nat n) 0.

(** Upstream lists the instruments named [names] and answers every
    order book request with the same two-sided snapshot; the clock
    ticks. *)
Definition world_answering (names : list string) : world :=
  World ticking 0
    (fun _ req =>
       match req with
       | GetInstruments _ _ _ =>
           Response 200
             (Some (PDict [("result", PList (map sample_instrument names))]))
       | GetOrderBook _ =>
           Response 200 (Some (PDict [("result", snapshot_two_sided)]))
       end)
    0 ∅ [] (fun _ => true).

Definition twelve_names : list string :=
  ["A"; "B"; "C"; "D"; "E"; "F"; "G"; "H"; "I"; "J"; "K"; "L"].

(** Upstream lists X and Y; the snapshot of X is fine, the one of Y has
    [greeks] set to null. *)
Definition world_null_greeks : world :=
  sample_world
    (fun _ req =>
       match req with
       | GetInstruments _ _ _ =>
           Response 200
             (Some (PDict [("result",
                            PList [sample_instrument "X";
                                   sample_instrument "Y";
                                   sample_instrument "Z"])]))
       | GetOrderBook (PStr name) =>
           if String.eqb name "Y" then
             Response 200
               (Some (PDict [("result",
                              PDict [("mark_price", PFloat 1);
                                     ("greeks", PNone)])]))
           else
             Response 200 (Some (PDict [("result", snapshot_two_sided)]))
       | GetOrderBook _ => NoResponse
       end)
    ∅.

(** The symbol has no underscore in it. *)
Fixpoint plain_symbol (s : string) : bool :=
  match s with
  | EmptyString => true
  | String c rest => negb (Ascii.eqb c "_"%char) && plain_symbol rest
  end.

(** The rows of the file of that name in a directory. *)
Definition rows_at (directory : gmap string file) (name : string)
  : list record :=
  match directory !! name with
  | Some (Parquet rows) => rows
  | _ => []
  end.

Definition readable_at (directory : gmap string file) (name : string) : bool :=
  match directory !! name with
  | Some (Parquet _) => true
  | _ => false
  end.

(** The partition of 14 January cannot be read, the one of 15 January
    can. *)
Definition world_old_unreadable : world :=
  sample_world (fun _ _ => NoResponse)
    (<["BTC_options_20240114.parquet" := Unreadable]>
       (<["BTC_options_20240115.parquet" := Parquet [sample_row "B" jan15]]>
          ∅)).

(** A copy of a partition, kept under a name that ends in no date. *)
Definition world_with_stray : world :=
  sample_world (fun _ _ => NoResponse)
    (<["BTC_options_backup.parquet" := Parquet [sample_row "S" jan14]]>
       (<["BTC_options_20240115.parquet" := Parquet [sample_row "B" jan15]]>
          ∅)).

(** ** The file the analysis script loads

    [examples/analysis.py], lines 139-147: the files of the data
    directory that [glob.glob('../deribit_data/*.parquet')] lists (a
    name that ends in [.parquet] and does not start with a dot), and
    among them the one [max(files, key=lambda x: x)] picks. The paths
    share the directory, so they compare as their names do. *)
Definition parquet_files (directory : gmap string file) : list string :=
  filter (fun name =>
            Path.ends_with ".parquet" name && negb (String.prefix "." name)
            = true)
         (map fst (map_to_list directory)).

(** [max]: the first of the greatest items. *)
Fixpoint max_from (best : string) (rest : list string) : string :=
  match rest with
  | [] => best
  | x :: rest' => max_from (if String.ltb best x then x else best) rest'
  end.

(** [None] when there is no file, and the script stops. *)
Definition latest_file (directory : gmap string file) : option string :=
  match parquet_files directory with
  | [] => None
  | first :: rest => Some (max_from first rest)
  end.


(** The fields of a datetime, in the order they are compared. *)
Definition fields (d : datetime) : list N :=
  [year d; month d; day d; hour d; minute d; second d; microsecond d].

(** Comparison of two sequences of numbers, item by item. *)
Fixpoint compare_items (a b : list N) : comparison :=
  match a, b with
  | x :: a', y :: b' => Date.lex (x ?= y)%N (compare_items a' b')
  | _, _ => Eq
  end.

(** Upstream answers the discovery request with [null]. *)
Definition world_null_result : world :=
  sample_world (fun _ _ => Response 200 (Some (PDict [("result", PNone)]))) ∅.

(** * Properties *)

(** ** Record assembly *)

Section AssemblyFacts.

Lemma getitem_present kvs k :
  is_Some (Py.assoc k kvs) →
  Py.getitem (PDict kvs) k = Ok (stored (Py.assoc k kvs)).
Proof. intros [v Hv]. simpl. by rewrite Hv. Qed.

Lemma price_or_none_dict kvs k :
  price_or_none (PDict kvs) k =
  Ok (if Py.truthy (stored (Py.assoc k kvs))
      then stored (Py.assoc k kvs) else PNone).
Proof.
  unfold price_or_none, stored, Py.get, Py.getitem, rbind.
  destruct (Py.assoc k kvs) as [v|]; simpl; [|done].
  by destruct (Py.truthy v).
Qed.

Lemma nested_get_dict kvs outer inner :
  object_or_absent (Py.assoc outer kvs) = true →
  nested_get (PDict kvs) outer inner = Ok (stored (nested kvs outer inner)).
Proof.
  unfold nested_get, nested, stored. simpl.
  destruct (Py.assoc outer kvs) as [[]|]; simpl; done.
Qed.

(** The expression [(b + a) / 2] returns exactly on the values that
    have a mean. *)
Lemma mean_returns bid ask :
  mean_defined bid ask = true →
  ∃ sum,
    Py.add bid ask = Ok sum ∧ Py.half sum = Ok (mean_of bid ask).
Proof.
  unfold mean_defined, mean_of, fits, Py.add, Py.half, Py.float_of_int, rbind.
  destruct bid as [|bb|bz|bf|bs|bl|bk], ask as [|ab|az|af|as_|al|ak];
    simpl; try discriminate;
    repeat match goal with
           | |- context [Py.nearest_double ?z ?e] =>
               destruct (Py.nearest_double z e) eqn:?; simpl
           end;
    intros Hfits; try discriminate Hfits;
    eexists; (split; [reflexivity|]); simpl;
    repeat match goal with
           | H : Py.nearest_double _ _ = _ |- _ => rewrite H
           end; reflexivity.
Qed.

Lemma mean_raises bid ask :
  mean_defined bid ask = false →
  ∃ e, rbind (Py.add bid ask) Py.half = Raise e.
Proof.
  unfold mean_defined, fits, Py.add, Py.half, Py.float_of_int, rbind.
  destruct bid as [|bb|bz|bf|bs|bl|bk], ask as [|ab|az|af|as_|al|ak];
    simpl; try discriminate; eauto;
    repeat match goal with
           | |- context [Py.nearest_double ?z ?e] =>
               destruct (Py.nearest_double z e) eqn:?; simpl
           end;
    intros Hfits; eauto; discriminate Hfits.
Qed.

Lemma mid_price_of_dict kvs :
  snapshot_ok (PDict kvs) = true →
  mid_price_of (PDict kvs) = Ok (mid_of kvs).
Proof.
  unfold snapshot_ok, mid_price_of, mid_of, stored. simpl.
  intros [[_ _]%andb_prop Hpair]%andb_prop. revert Hpair.
  destruct (Py.assoc "best_bid_price" kvs) as [bid|]; simpl; [|done].
  destruct (Py.truthy bid) eqn:Hbid; simpl; [|done].
  destruct (Py.assoc "best_ask_price" kvs) as [ask|]; simpl; [|done].
  destruct (Py.truthy ask) eqn:Hask; simpl; [|done].
  intros (sum & -> & Hhalf)%mean_returns. exact Hhalf.
Qed.

(** Assembly returns for a well-formed instrument and snapshot, and
    every field is what its expression says. *)
Lemma assemble_returns now name instrument kvs :
  instrument_ok instrument = true →
  snapshot_ok (PDict kvs) = true →
  ∃ row,
    assemble now name instrument (PDict kvs) = Ok row ∧
    timestamp row = now ∧
    instrument_name row = name ∧
    mark_price row = stored (Py.assoc "mark_price" kvs) ∧
    last_price row = stored (Py.assoc "last_price" kvs) ∧
    bid_price row =
      (if Py.truthy (stored (Py.assoc "best_bid_price" kvs))
       then stored (Py.assoc "best_bid_price" kvs) else PNone) ∧
    ask_price row =
      (if Py.truthy (stored (Py.assoc "best_ask_price" kvs))
       then stored (Py.assoc "best_ask_price" kvs) else PNone) ∧
    mid_price row = mid_of kvs ∧
    delta row = stored (nested kvs "greeks" "delta") ∧
    gamma row = stored (nested kvs "greeks" "gamma") ∧
    vega row = stored (nested kvs "greeks" "vega") ∧
    theta row = stored (nested kvs "greeks" "theta") ∧
    rho row = stored (nested kvs "greeks" "rho") ∧
    mark_iv row = stored (Py.assoc "mark_iv" kvs) ∧
    bid_iv row = stored (Py.assoc "bid_iv" kvs) ∧
    ask_iv row = stored (Py.assoc "ask_iv" kvs) ∧
    open_interest row = stored (Py.assoc "open_interest" kvs) ∧
    volume_24h row = stored (nested kvs "stats" "volume") ∧
    underlying_price row = stored (Py.assoc "underlying_price" kvs) ∧
    underlying_index row = stored (Py.assoc "underlying_index" kvs).
Proof.
  intros Hinst Hsnap.
  destruct instrument as [| | | | | |ikvs]; try discriminate Hinst.
  simpl in Hinst.
  apply andb_prop in Hinst as [[[_ He]%andb_prop Hs]%andb_prop Ht].
  apply bool_decide_eq_true in He, Hs, Ht.
  pose proof Hsnap as Hsub. simpl in Hsub.
  apply andb_prop in Hsub as [[Hg Hst]%andb_prop _].
  unfold assemble.
  rewrite !getitem_present by done.
  rewrite !price_or_none_dict, (mid_price_of_dict _ Hsnap).
  rewrite !(nested_get_dict _ "greeks") by done.
  rewrite (nested_get_dict _ "stats") by done.
  simpl. eexists. split; [reflexivity|]. simpl. repeat split.
Qed.

End AssemblyFacts.

Section AssemblyClaims.

(** C1 as stated does not hold: with best bid 0 and best ask 5 both
    reported, the record's mid price is null and not their mean. *)
Lemma mid_price_null_when_bid_is_zero :
  ¬ (∀ now name instrument kvs (b a : float) row,
       Py.assoc "best_bid_price" kvs = Some (PFloat b) →
       Py.assoc "best_ask_price" kvs = Some (PFloat a) →
       assemble now name instrument (PDict kvs) = Ok row →
       mid_price row = PFloat ((b + a) / 2)).
Proof.
  intros claim.
  pose (kvs := [("best_bid_price", PFloat 0); ("best_ask_price", PFloat 5);
                ("mark_price", PFloat 0)]).
  destruct (assemble sample_day (PStr "X") (sample_instrument "X") (PDict kvs))
    as [row|] eqn:Hrow; [|discriminate Hrow].
  specialize (claim _ _ _ kvs 0%float 5%float row eq_refl eq_refl Hrow).
  vm_compute in Hrow. injection Hrow as <-. discriminate claim.
Qed.

(** C1, amended: when best bid and best ask are both reported and
    neither is falsy, the mid price is [(bid + ask) / 2] as Python
    computes it on the two reported numbers: for two floats the sum of
    doubles halved, for two integers the double nearest to half their
    sum. It is null whenever either side is falsy, which covers a
    side that is absent, a side reported as null and a side reported
    as zero; it is never computed from one side alone. *)
Theorem mid_price_mean_of_nonzero_sides now name instrument kvs :
  instrument_ok instrument = true →
  snapshot_ok (PDict kvs) = true →
  ∃ row,
    assemble now name instrument (PDict kvs) = Ok row ∧
    (Py.truthy (stored (Py.assoc "best_bid_price" kvs)) = true →
     Py.truthy (stored (Py.assoc "best_ask_price" kvs)) = true →
     ∃ sum,
       Py.add (stored (Py.assoc "best_bid_price" kvs))
              (stored (Py.assoc "best_ask_price" kvs)) = Ok sum ∧
       Py.half sum = Ok (mid_price row)) ∧
    (∀ b a : float,
       Py.assoc "best_bid_price" kvs = Some (PFloat b) →
       Py.assoc "best_ask_price" kvs = Some (PFloat a) →
       (b =? 0)%float = false → (a =? 0)%float = false →
       mid_price row = PFloat ((b + a) / 2)) ∧
    (∀ b a : Z,
       Py.assoc "best_bid_price" kvs = Some (PInt b) →
       Py.assoc "best_ask_price" kvs = Some (PInt a) →
       b ≠ 0%Z → a ≠ 0%Z →
       ∃ f, Py.nearest_double (b + a) (-1) = Some f ∧
            mid_price row = PFloat f) ∧
    (Py.truthy (stored (Py.assoc "best_bid_price" kvs)) = false ∨
     Py.truthy (stored (Py.assoc "best_ask_price" kvs)) = false →
     mid_price row = PNone) ∧
    (Py.assoc "best_bid_price" kvs = None ∨
     Py.assoc "best_ask_price" kvs = None →
     mid_price row = PNone) ∧
    (Py.assoc "best_bid_price" kvs = Some PNone ∨
     Py.assoc "best_ask_price" kvs = Some PNone →
     mid_price row = PNone) ∧
    (∀ zero,
       zero = PInt 0 ∨ (∃ f, zero = PFloat f ∧ (f =? 0)%float = true) →
       Py.assoc "best_bid_price" kvs = Some zero ∨
       Py.assoc "best_ask_price" kvs = Some zero →
       mid_price row = PNone).
Proof.
  intros Hinst Hsnap.
  destruct (assemble_returns now name instrument kvs Hinst Hsnap)
    as (row & Hrow & _ & _ & _ & _ & _ & _ & Hmid & _).
  exists row. split; [done|]. rewrite Hmid.
  simpl in Hsnap. apply andb_prop in Hsnap as [_ Hpair].
  assert (Hfalsy :
            Py.truthy (stored (Py.assoc "best_bid_price" kvs)) = false ∨
            Py.truthy (stored (Py.assoc "best_ask_price" kvs)) = false →
            mid_of kvs = PNone).
  { unfold mid_of. intros [-> | ->]; [done|]. by rewrite andb_false_r. }
  split; [|split; [|split; [|split; [|split; [|split]]]]].
  - intros Hb Ha. unfold mid_of. rewrite Hb, Ha in Hpair |- *. simpl in *.
    by apply mean_returns.
  - intros b a Eb Ea Hb Ha. unfold mid_of. rewrite Eb, Ea. simpl.
    by rewrite Hb, Ha.
  - intros b a Eb Ea Hb Ha. unfold mid_of. rewrite Eb, Ea in Hpair |- *.
    simpl in *.
    apply Z.eqb_neq in Hb, Ha. rewrite Hb, Ha in Hpair |- *. simpl in *.
    unfold mean_defined, fits in Hpair. simpl in Hpair.
    apply bool_decide_eq_true in Hpair as [f Hf].
    exists f. split; [done|].
    unfold mean_of, Py.add, Py.half. simpl. by rewrite Hf.
  - exact Hfalsy.
  - intros [E | E]; apply Hfalsy; rewrite E; auto.
  - intros [E | E]; apply Hfalsy; rewrite E; auto.
  - intros zero Hzero [E | E]; apply Hfalsy; rewrite E; simpl;
      destruct Hzero as [-> | (f & -> & Hf)]; simpl; rewrite ?Hf; auto.
Qed.

Lemma mid_price_mean_of_nonzero_sides_witness :
  ∃ row,
    assemble sample_day (PStr "X") (sample_instrument "X")
      snapshot_two_sided = Ok row ∧
    mid_price row = PFloat ((4 + 6) / 2).
Proof.
  destruct (mid_price_mean_of_nonzero_sides sample_day (PStr "X")
              (sample_instrument "X")
              [("best_bid_price", PFloat 4); ("best_ask_price", PFloat 6);
               ("greeks", PDict [("delta", PFloat 0)])]
              eq_refl eq_refl) as (row & Hrow & _ & Hmean & _).
  exists row. split; [exact Hrow|].
  apply Hmean; reflexivity.
Defined.

(** C2 as stated does not hold: a best bid reported as zero is stored
    as null. *)
Lemma zero_bid_stored_as_null :
  ¬ (∀ now name instrument kvs v row,
       Py.assoc "best_bid_price" kvs = Some v →
       assemble now name instrument (PDict kvs) = Ok row →
       bid_price row = v).
Proof.
  intros claim.
  pose (kvs := [("best_bid_price", PFloat 0); ("best_ask_price", PFloat 5);
                ("mark_price", PFloat 0)]).
  destruct (assemble sample_day (PStr "X") (sample_instrument "X") (PDict kvs))
    as [row|] eqn:Hrow; [|discriminate Hrow].
  specialize (claim _ _ _ kvs (PFloat 0) row eq_refl Hrow).
  vm_compute in Hrow. injection Hrow as <-. discriminate claim.
Qed.

(** C2, amended: every field other than the bid, ask and mid prices
    holds exactly what upstream reported under its key, null when the
    key is absent and the reported value (zero included) when it is
    there; the bid and ask prices hold the reported value when it is
    truthy, and null when it is absent or falsy, zero in particular. *)
Theorem fields_stored_as_reported now name instrument kvs :
  instrument_ok instrument = true →
  snapshot_ok (PDict kvs) = true →
  ∃ row,
    assemble now name instrument (PDict kvs) = Ok row ∧
    mark_price row = stored (Py.assoc "mark_price" kvs) ∧
    last_price row = stored (Py.assoc "last_price" kvs) ∧
    delta row = stored (nested kvs "greeks" "delta") ∧
    gamma row = stored (nested kvs "greeks" "gamma") ∧
    vega row = stored (nested kvs "greeks" "vega") ∧
    theta row = stored (nested kvs "greeks" "theta") ∧
    rho row = stored (nested kvs "greeks" "rho") ∧
    mark_iv row = stored (Py.assoc "mark_iv" kvs) ∧
    bid_iv row = stored (Py.assoc "bid_iv" kvs) ∧
    ask_iv row = stored (Py.assoc "ask_iv" kvs) ∧
    open_interest row = stored (Py.assoc "open_interest" kvs) ∧
    volume_24h row = stored (nested kvs "stats" "volume") ∧
    underlying_price row = stored (Py.assoc "underlying_price" kvs) ∧
    underlying_index row = stored (Py.assoc "underlying_index" kvs) ∧
    bid_price row =
      (if Py.truthy (stored (Py.assoc "best_bid_price" kvs))
       then stored (Py.assoc "best_bid_price" kvs) else PNone) ∧
    ask_price row =
      (if Py.truthy (stored (Py.assoc "best_ask_price" kvs))
       then stored (Py.assoc "best_ask_price" kvs) else PNone).
Proof.
  intros Hinst Hsnap.
  destruct (assemble_returns now name instrument kvs Hinst Hsnap)
    as (row & Hrow & _ & _ & ? & ? & ? & ? & _ & ? & ? & ? & ? & ? & ?
        & ? & ? & ? & ? & ? & ?).
  exists row. repeat split; assumption.
Qed.

Lemma fields_stored_as_reported_witness :
  ∃ row,
    assemble sample_day (PStr "X") (sample_instrument "X")
      snapshot_no_bid = Ok row ∧
    mark_price row = PFloat 0 ∧ last_price row = PNone ∧
    bid_price row = PNone ∧ ask_price row = PFloat 5.
Proof.
  destruct (fields_stored_as_reported sample_day (PStr "X")
              (sample_instrument "X")
              [("best_bid_price", PFloat 0); ("best_ask_price", PFloat 5);
               ("mark_price", PFloat 0)]
              eq_refl eq_refl)
    as (row & Hrow & Hmark & Hlast & _ & _ & _ & _ & _ & _ & _ & _ & _ & _
        & _ & _ & Hbid & Hask).
  exists row. repeat split; assumption.
Defined.

End AssemblyClaims.

(** ** Instrument discovery *)

Section Discovery.

Lemma result_of_failures :
  result_of NoResponse = Raise ConnectionError ∧
  result_of (Response 503 None) = Raise (HTTPError 503) ∧
  result_of (Response 200 None) = Raise JSONDecodeError ∧
  result_of (Response 200 (Some (PDict [("error", PStr "bad")])))
    = Raise (KeyError "result") ∧
  result_of (Response 200 (Some (PList []))) = Raise TypeError.
Proof. repeat split. Qed.

(** C3 as stated does not hold: a failed request does not make
    discovery fail. With the network down it raises nothing and returns
    the empty list, the very value it returns when upstream reports
    zero instruments. *)
Lemma discovery_failure_returns_empty_list :
  ¬ (∀ currency kind expired w e,
       result_of (remote w (sent w)
                    (GetInstruments currency kind
                       (if negb expired then "false" else "true")))
         = Raise e →
       ∃ e', fst (get_instruments currency kind expired w) = Raise e') ∧
  fst (get_instruments "BTC" "option" false world_offline)
    = fst (get_instruments "BTC" "option" false world_no_instruments).
Proof.
  split; [|reflexivity].
  intros claim.
  destruct (claim "BTC" "option" false world_offline ConnectionError eq_refl)
    as [e' He'].
  discriminate He'.
Qed.

(** C3, amended: discovery never fails. When the request, the status
    check or the decoding of the answer fails, it prints the error
    and returns the empty list, as it does when upstream reports zero
    instruments; otherwise it returns the [result] of the answer and
    prints nothing. The returned value alone does not tell a failure
    from an empty list. *)
Theorem get_instruments_absorbs_failure currency kind expired w :
  let answer :=
    result_of (remote w (sent w)
                 (GetInstruments currency kind
                    (if negb expired then "false" else "true"))) in
  fst (get_instruments currency kind expired w)
    = Ok (match answer with Ok v => v | Raise _ => PList [] end) ∧
  events (snd (get_instruments currency kind expired w))
    = events w ++ match answer with
                  | Ok _ => []
                  | Raise e => [Print (MsgErrorInstruments e)]
                  end ∧
  sent (snd (get_instruments currency kind expired w)) = S (sent w).
Proof.
  unfold get_instruments, bind, requests_get. simpl.
  destruct (result_of _); simpl; by rewrite ?app_nil_r.
Qed.

End Discovery.

(** ** Appending to a partition *)

Section Append.

Variable currency : string.

Lemma save_to_parquet_creates df w :
  df ≠ [] →
  files w !! target currency w = None →
  convertible w df = true →
  save_to_parquet currency df w =
    (Ok (Some (target currency w)),
     World (clock w) (S (readings w)) (remote w) (sent w)
           (<[target currency w := Parquet df]> (files w))
           ((events w ++ [Print (MsgCreated (target currency w))])
              ++ [Print (MsgTotalInFile (length df))])
           (convertible w)).
Proof.
  intros Hdf Hnew Hconv. destruct df as [|row df]; [done|].
  unfold save_to_parquet, get_daily_filename, bind, now, exists_, to_parquet,
    target in *.
  simpl. rewrite Hnew. rewrite bool_decide_eq_false_2 by (by intros []).
  simpl. rewrite Hconv. reflexivity.
Qed.

Lemma save_to_parquet_appends df existing w :
  df ≠ [] →
  files w !! target currency w = Some (Parquet existing) →
  convertible w (existing ++ df) = true →
  save_to_parquet currency df w =
    (Ok (Some (target currency w)),
     World (clock w) (S (readings w)) (remote w) (sent w)
           (<[target currency w := Parquet (existing ++ df)]> (files w))
           ((events w ++ [Print (MsgAppended (target currency w))])
              ++ [Print (MsgTotalInFile (length (existing ++ df)))])
           (convertible w)).
Proof.
  intros Hdf Hold Hconv. destruct df as [|row df]; [done|].
  unfold save_to_parquet, get_daily_filename, bind, now, exists_,
    read_parquet, to_parquet, target in *.
  simpl. rewrite Hold. rewrite bool_decide_eq_true_2 by eauto.
  simpl. rewrite Hold. simpl. rewrite Hconv. reflexivity.
Qed.

Lemma partition_name_same_day (a b : datetime) :
  Date.floor a = Date.floor b →
  partition_name currency a = partition_name currency b.
Proof.
  unfold Date.floor, Date.midnight, partition_name, Date.strftime_Ymd.
  intros [= -> -> ->]. reflexivity.
Qed.

(** C8: appending an empty batch returns no path, prints that there
    is nothing to save, raises nothing, and leaves every file of the
    directory as it was. *)
Theorem save_to_parquet_empty_batch w :
  fst (save_to_parquet currency [] w) = Ok None ∧
  files (snd (save_to_parquet currency [] w)) = files w ∧
  events (snd (save_to_parquet currency [] w))
    = events w ++ [Print MsgNoDataToSave].
Proof. repeat split. Qed.

Lemma save_to_parquet_unreadable df w :
  df ≠ [] →
  files w !! target currency w = Some Unreadable →
  save_to_parquet currency df w =
    (Raise StorageError,
     World (clock w) (S (readings w)) (remote w) (sent w) (files w)
           (events w) (convertible w)).
Proof.
  intros Hdf Hbad. destruct df as [|row df]; [done|].
  unfold save_to_parquet, get_daily_filename, bind, now, exists_,
    read_parquet, target in *.
  simpl. rewrite Hbad. rewrite bool_decide_eq_true_2 by eauto.
  simpl. by rewrite Hbad.
Qed.

(** C9: when the partition file of the day exists and cannot be
    read, appending a batch raises the storage error and the
    directory is what it was before the call: nothing was written. *)
Theorem save_to_parquet_read_failure df w :
  df ≠ [] →
  files w !! target currency w = Some Unreadable →
  fst (save_to_parquet currency df w) = Raise StorageError ∧
  files (snd (save_to_parquet currency df w)) = files w.
Proof.
  intros Hdf Hbad.
  by rewrite (save_to_parquet_unreadable df w Hdf Hbad).
Qed.

(** A frame the Parquet library cannot convert is not written: the
    call raises and the directory is what it was. *)
Lemma save_to_parquet_refused df w :
  df ≠ [] →
  files w !! target currency w ≠ Some Unreadable →
  convertible w (rows_of currency (files w) (clock w (readings w)) ++ df)
    = false →
  fst (save_to_parquet currency df w) = Raise ArrowException ∧
  files (snd (save_to_parquet currency df w)) = files w.
Proof.
  intros Hdf Hfile Hconv. destruct df as [|row df]; [done|].
  unfold save_to_parquet, get_daily_filename, bind, now, exists_,
    read_parquet, to_parquet, rows_of, target in *.
  simpl in *.
  destruct (files w !! partition_name currency (clock w (readings w)))
    as [[existing|]|] eqn:Hold; [| done |].
  - rewrite bool_decide_eq_true_2 by eauto. simpl. rewrite Hold. simpl.
    by rewrite Hconv.
  - rewrite bool_decide_eq_false_2 by (by intros []). simpl in *.
    by rewrite Hconv.
Qed.

(** Whatever the batch, a call either leaves the directory as it was
    or replaces the file of the day by what it held followed by the
    batch: the write comes last, with the merged content. *)
Lemma save_to_parquet_writes_merged df w :
  files (snd (save_to_parquet currency df w)) = files w ∨
  files (snd (save_to_parquet currency df w))
    = <[target currency w :=
          Parquet (rows_of currency (files w) (clock w (readings w)) ++ df)]>
        (files w).
Proof.
  destruct df as [|row df]; [by left|].
  destruct (convertible w (rows_of currency (files w) (clock w (readings w))
                             ++ row :: df)) eqn:Hconv.
  - destruct (files w !! target currency w) as [[existing|]|] eqn:Hfile.
    + right. unfold rows_of in *. unfold target in Hfile.
      rewrite Hfile in Hconv |- *.
      by rewrite (save_to_parquet_appends (row :: df) existing w).
    + left. by rewrite (save_to_parquet_unreadable (row :: df) w).
    + right. unfold rows_of in *. unfold target in Hfile.
      rewrite Hfile in Hconv |- *.
      by rewrite (save_to_parquet_creates (row :: df) w).
  - destruct (files w !! target currency w) as [[existing|]|] eqn:Hfile.
    + left. apply save_to_parquet_refused; [done | by rewrite Hfile | done].
    + left. by rewrite (save_to_parquet_unreadable (row :: df) w).
    + left. apply save_to_parquet_refused; [done | by rewrite Hfile | done].
Qed.


(** The hypothesis on the frames is needed: a second batch whose
    merge with the first cannot be converted is not written, and the
    partition keeps the first batch alone. *)
Lemma save_to_parquet_twice_refused B1 B2 w :
  B1 ≠ [] → B2 ≠ [] →
  files w !! target currency w = None →
  Date.floor (clock w (S (readings w))) = Date.floor (clock w (readings w)) →
  convertible w B1 = true →
  convertible w (B1 ++ B2) = false →
  let after1 := save_to_parquet currency B1 w in
  let after2 := save_to_parquet currency B2 (snd after1) in
  fst after2 = Raise ArrowException ∧
  files (snd after2) !! target currency w = Some (Parquet B1).
Proof.
  intros H1 H2 Hnew Hday Hconv1 Hconv2 after1 after2. subst after1 after2.
  rewrite (save_to_parquet_creates B1 w H1 Hnew Hconv1). simpl.
  set (w1 := World _ _ _ _ _ _ _).
  assert (Htarget : target currency w1 = target currency w).
  { unfold target, w1. simpl. by apply partition_name_same_day. }
  assert (Hold : files w1 !! target currency w1 = Some (Parquet B1)).
  { rewrite Htarget. unfold w1. simpl. apply lookup_insert_eq. }
  destruct (save_to_parquet_refused B2 w1 H2) as [-> ->].
  - by rewrite Hold.
  - unfold rows_of. unfold target in Hold. by rewrite Hold.
  - split; [done|]. by rewrite <- Htarget.
Qed.

End Append.

(** ** The collection loop *)

Section Batch.

Lemma with_data_sublist answers n instruments :
  sublist (with_data answers n instruments) instruments.
Proof.
  revert n. induction instruments as [|instrument rest IH]; intros n; simpl.
  - constructor.
  - destruct (has_data answers n instrument).
    + by apply sublist_skip.
    + by apply sublist_cons.
Qed.

Lemma with_data_length answers n instruments :
  length (with_data answers n instruments) ≤ length instruments.
Proof. apply sublist_length, with_data_sublist. Qed.

Lemma get_orderbook_returns name w :
  ∃ w',
    get_orderbook name w
      = (Ok (orderbook_of (remote w) (sent w) name), w') ∧
    clock w' = clock w ∧ readings w' = readings w ∧
    remote w' = remote w ∧ sent w' = S (sent w) ∧ files w' = files w.
Proof.
  unfold get_orderbook, orderbook_of, bind, requests_get. simpl.
  destruct (result_of _); simpl; eexists; (split; [reflexivity|done]).
Qed.

Lemma instrument_ok_name instrument :
  instrument_ok instrument = true →
  Py.getitem instrument "instrument_name" = Ok (name_of instrument).
Proof.
  destruct instrument as [| | | | | |kvs]; try discriminate. simpl.
  intros [[[[v Hv]%bool_decide_eq_true _]%andb_prop _]%andb_prop _]%andb_prop.
  unfold name_of. simpl. by rewrite Hv.
Qed.

Lemma snapshot_ok_dict orderbook :
  snapshot_ok orderbook = true → ∃ kvs, orderbook = PDict kvs.
Proof. destruct orderbook; try discriminate. eauto. Qed.

(** One turn of the loop: at most one record is added, for the
    instrument of the turn, and exactly when its fetch returned
    data; the turn makes one request and writes no file. *)
Lemma collect_one_returns total idx instrument data w :
  instrument_ok instrument = true →
  (has_data (remote w) (sent w) instrument = true →
   snapshot_ok (orderbook_of (remote w) (sent w) (name_of instrument))
     = true) →
  ∃ new w',
    collect_one total idx instrument data w
      = (Ok (data ++ new), w') ∧
    map instrument_name new
      = (if has_data (remote w) (sent w) instrument
         then [name_of instrument] else []) ∧
    remote w' = remote w ∧ sent w' = S (sent w) ∧ files w' = files w.
Proof.
  intros Hinst Hsnap. unfold collect_one, bind, lift.
  generalize ((idx + 1) mod 10 =? 0)%nat as tenth. intros tenth.
  rewrite (instrument_ok_name _ Hinst).
  destruct (get_orderbook_returns (name_of instrument) w)
    as (w1 & -> & Hclock & Hread & Hremote & Hsent & Hfiles).
  unfold has_data in *.
  destruct (Py.truthy _) eqn:Hdata.
  - specialize (Hsnap eq_refl).
    destruct (snapshot_ok_dict _ Hsnap) as [kvs Hkvs].
    rewrite Hkvs in Hsnap |- *.
    destruct (assemble_returns (clock w1 (readings w1)) (name_of instrument)
                instrument kvs Hinst Hsnap) as (row & Hrow & _ & Hname & _).
    unfold now. simpl. rewrite Hrow. simpl.
    exists [row].
    destruct tenth; simpl;
      (eexists; split; [reflexivity|]); simpl; by rewrite Hname.
  - exists []. rewrite app_nil_r.
    destruct tenth; simpl; (eexists; split; [reflexivity|]); done.
Qed.

(** The whole loop: it goes through every instrument, one request
    each, and adds the records of those with data, in their order. *)
Lemma collect_loop_returns total instruments :
  ∀ idx data w,
    batch_ok (remote w) (sent w) instruments = true →
    ∃ new w',
      collect_loop total idx instruments data w
        = (Ok (data ++ new), w') ∧
      map instrument_name new
        = map name_of (with_data (remote w) (sent w) instruments) ∧
      remote w' = remote w ∧
      sent w' = sent w + length instruments ∧
      files w' = files w.
Proof.
  induction instruments as [|instrument rest IH]; intros idx data w Hok.
  - exists [], w. simpl. by rewrite app_nil_r, Nat.add_0_r.
  - simpl in Hok.
    apply andb_prop in Hok as [[Hinst Hsnap]%andb_prop Hrest].
    destruct (collect_one_returns total idx instrument data w Hinst)
      as (new1 & w1 & Hone & Hnames1 & Hremote1 & Hsent1 & Hfiles1).
    { intros Hdata. rewrite Hdata in Hsnap. exact Hsnap. }
    rewrite <- Hremote1, <- Hsent1 in Hrest.
    destruct (IH (S idx) (data ++ new1) w1 Hrest)
      as (new2 & w2 & Hloop & Hnames2 & Hremote2 & Hsent2 & Hfiles2).
    exists (new1 ++ new2), w2.
    simpl. unfold bind. rewrite Hone, Hloop, <- app_assoc.
    split; [done|]. rewrite map_app, Hnames1, Hnames2, Hremote1, Hsent1.
    split; [by destruct (has_data _ _ _)|].
    split; [congruence|]. split; [lia | congruence].
Qed.

(** A whole cycle, when discovery returned the list [instruments]. *)
Lemma collect_options_data_returns currency instruments w :
  result_of (remote w (sent w) (GetInstruments currency "option" "false"))
    = Ok (PList instruments) →
  batch_ok (remote w) (S (sent w)) instruments = true →
  ∃ data w',
    collect_options_data currency w = (Ok data, w') ∧
    map instrument_name data
      = map name_of (with_data (remote w) (S (sent w)) instruments) ∧
    sent w' = S (sent w) + length instruments ∧
    files w' = files w.
Proof.
  intros Hfound Hok.
  unfold collect_options_data, get_instruments, requests_get, print, emit,
    lift, bind. simpl. rewrite Hfound. simpl.
  set (w1 := World _ _ _ _ _ _ _).
  destruct (collect_loop_returns (length instruments) instruments
              0 [] w1 Hok)
    as (data & w2 & Hloop & Hnames & Hremote & Hsent & Hfiles).
  rewrite Hloop. simpl. exists data. eexists. split; [reflexivity|].
  simpl. done.
Qed.

End Batch.

Section BatchClaims.

Lemma sublist_map {A B} (f : A → B) (l1 l2 : list A) :
  sublist l1 l2 → sublist (map f l1) (map f l2).
Proof. induction 1; simpl; by constructor. Qed.

(** C7: in a cycle over a well-formed batch, every instrument is
    fetched, a fetch that fails or returns no data adds no record and
    does not stop the loop, and the records are as many as the
    instruments whose fetch returned data, hence at most as many as
    the instruments. *)
Theorem failed_fetch_yields_no_record currency instruments w :
  result_of (remote w (sent w) (GetInstruments currency "option" "false"))
    = Ok (PList instruments) →
  batch_ok (remote w) (S (sent w)) instruments = true →
  ∃ data w',
    collect_options_data currency w = (Ok data, w') ∧
    length data
      = length (with_data (remote w) (S (sent w)) instruments) ∧
    length data ≤ length instruments ∧
    sent w' = S (sent w) + length instruments.
Proof.
  intros Hfound Hok.
  destruct (collect_options_data_returns currency instruments w Hfound Hok)
    as (data & w' & Hrun & Hnames & Hsent & _).
  exists data, w'. split; [done|].
  assert (Hlen : length data
                 = length (with_data (remote w) (S (sent w)) instruments)).
  { by rewrite <- (length_map instrument_name), Hnames, length_map. }
  split; [done|]. split; [|done].
  rewrite Hlen. apply with_data_length.
Qed.

Lemma failed_fetch_yields_no_record_witness :
  ∃ data w',
    collect_options_data "BTC" world_x_fails_y_answers = (Ok data, w') ∧
    length data = 1 ∧
    map instrument_name data = [PStr "Y"] ∧
    sent w' = 4.
Proof.
  destruct (failed_fetch_yields_no_record "BTC"
              [sample_instrument "X"; sample_instrument "Z";
               sample_instrument "Y"]
              world_x_fails_y_answers eq_refl eq_refl)
    as (data & w' & Hrun & Hlen & _ & Hsent).
  exists data, w'. split; [exact Hrun|]. split; [exact Hlen|].
  split; [|exact Hsent].
  vm_compute in Hrun. injection Hrun as <- _. reflexivity.
Defined.

(** C10: the records of a cycle come in the order of the discovered
    instruments: their names are the names of the instruments whose
    fetch returned data, in discovery order, a subsequence of the
    names of the discovered instruments. *)
Theorem records_in_discovery_order currency instruments w :
  result_of (remote w (sent w) (GetInstruments currency "option" "false"))
    = Ok (PList instruments) →
  batch_ok (remote w) (S (sent w)) instruments = true →
  ∃ data w',
    collect_options_data currency w = (Ok data, w') ∧
    map instrument_name data
      = map name_of (with_data (remote w) (S (sent w)) instruments) ∧
    sublist (map instrument_name data) (map name_of instruments).
Proof.
  intros Hfound Hok.
  destruct (collect_options_data_returns currency instruments w Hfound Hok)
    as (data & w' & Hrun & Hnames & _).
  exists data, w'. split; [done|]. split; [done|].
  rewrite Hnames. apply sublist_map, with_data_sublist.
Qed.

End BatchClaims.

(** ** File names and dates *)

Section Names.

Lemma append_cons c s t : String c s +:+ t = String c (s +:+ t).
Proof. reflexivity. Qed.

Lemma append_assoc (s t u : string) : (s +:+ t) +:+ u = s +:+ (t +:+ u).
Proof. induction s as [|c s IH]; [done|]. by rewrite !append_cons, IH. Qed.

Lemma length_append (s t : string) :
  String.length (s +:+ t) = String.length s + String.length t.
Proof. induction s as [|c s IH]; [done|]. rewrite append_cons. simpl. lia. Qed.

Lemma compare_common_prefix (p a b : string) :
  String.compare (p +:+ a) (p +:+ b) = String.compare a b.
Proof.
  induction p as [|c p IH]; [done|].
  rewrite !append_cons. simpl.
  unfold Ascii.compare. by rewrite N.compare_refl.
Qed.

Lemma compare_refl (s : string) : String.compare s s = Eq.
Proof.
  induction s as [|c s IH]; [done|]. simpl.
  unfold Ascii.compare. by rewrite N.compare_refl.
Qed.

Lemma add_compare_left (p n m : N) : (p + n ?= p + m)%N = (n ?= m)%N.
Proof.
  destruct (N.compare_spec n m) as [-> | Hlt | Hgt].
  - apply N.compare_refl.
  - apply N.compare_lt_iff. lia.
  - apply N.compare_gt_iff. lia.
Qed.

Lemma digit_compare (p q : N) :
  (p < 10)%N → (q < 10)%N →
  Ascii.compare (Date.digit p) (Date.digit q) = (p ?= q)%N.
Proof.
  intros Hp Hq. unfold Ascii.compare, Date.digit.
  rewrite !N.mod_small by done.
  rewrite !N_ascii_embedding by lia.
  apply add_compare_left.
Qed.

(** Numbers printed on the same number of digits compare as texts
    the way they compare as numbers. *)
Lemma zero_padded_compare width :
  ∀ (n1 n2 : N) (s1 s2 : string),
    (n1 < 10 ^ N.of_nat width)%N → (n2 < 10 ^ N.of_nat width)%N →
    String.compare (Date.zero_padded width n1 +:+ s1)
                   (Date.zero_padded width n2 +:+ s2)
    = Date.lex (n1 ?= n2)%N (String.compare s1 s2).
Proof.
  induction width as [|w IH]; intros n1 n2 s1 s2 H1 H2.
  - simpl in *. assert (n1 = 0%N) as -> by lia.
    assert (n2 = 0%N) as -> by lia. done.
  - rewrite Nat2N.inj_succ, N.pow_succ_r' in H1, H2.
    set (P := (10 ^ N.of_nat w)%N) in *.
    assert (HP : (0 < P)%N) by (apply N.neq_0_lt_0, N.pow_nonzero; lia).
    pose proof (N.div_mod n1 P ltac:(lia)) as E1.
    pose proof (N.div_mod n2 P ltac:(lia)) as E2.
    pose proof (N.mod_lt n1 P ltac:(lia)) as R1.
    pose proof (N.mod_lt n2 P ltac:(lia)) as R2.
    assert (Q1 : (n1 / P < 10)%N) by (apply N.Div0.div_lt_upper_bound; lia).
    assert (Q2 : (n2 / P < 10)%N) by (apply N.Div0.div_lt_upper_bound; lia).
    simpl Date.zero_padded. fold P. rewrite !append_cons. simpl String.compare.
    rewrite digit_compare by done.
    generalize dependent (n1 `div` P)%N. intros q1 ? ?.
    generalize dependent (n2 `div` P)%N. intros q2 ? ?.
    generalize dependent (n1 `mod` P)%N. intros r1 ? ?.
    generalize dependent (n2 `mod` P)%N. intros r2 ? ?.
    destruct (N.compare_spec q1 q2) as [Heq | Hlt | Hgt].
    + rewrite IH by done. f_equal. subst q2.
      destruct (N.compare_spec r1 r2) as [Hr | Hr | Hr].
      * symmetry. apply N.compare_eq_iff. lia.
      * symmetry. apply N.compare_lt_iff. lia.
      * symmetry. apply N.compare_gt_iff. lia.
    + assert ((n1 ?= n2)%N = Lt) as ->; [|done].
      apply N.compare_lt_iff.
      assert (P * (q1 + 1) ≤ P * q2)%N as Hstep
        by (apply N.mul_le_mono_l; lia).
      rewrite N.mul_add_distr_l, N.mul_1_r in Hstep. lia.
    + assert ((n1 ?= n2)%N = Gt) as ->; [|done].
      apply N.compare_gt_iff.
      assert (P * (q2 + 1) ≤ P * q1)%N as Hstep
        by (apply N.mul_le_mono_l; lia).
      rewrite N.mul_add_distr_l, N.mul_1_r in Hstep. lia.
Qed.

Lemma valid_bounds d :
  Date.valid d = true →
  (1 ≤ year d ≤ 9999 ∧ 1 ≤ month d ≤ 12 ∧ 1 ≤ day d ≤ 31)%N.
Proof.
  unfold Date.valid. rewrite !andb_true_iff.
  rewrite !N.leb_le. intros (((((((((? & ?) & ?) & ?) & ?) & Hd) & _) & _) & _) & _).
  assert (Date.days_in_month (year d) (month d) ≤ 31)%N; [|lia].
  unfold Date.days_in_month.
  repeat (case_match; try lia).
Qed.

Lemma compare_floor (a b : datetime) :
  Date.compare (Date.floor a) (Date.floor b)
  = Date.lex (year a ?= year b)%N
      (Date.lex (month a ?= month b)%N (day a ?= day b)%N).
Proof.
  unfold Date.compare. simpl.
  by destruct (year a ?= year b)%N, (month a ?= month b)%N,
    (day a ?= day b)%N.
Qed.

Lemma four_digit_year_valid d :
  Date.four_digit_year d = true → Date.valid d = true.
Proof. by intros [? _]%andb_prop. Qed.

Lemma four_digit_year_text d :
  Date.four_digit_year d = true →
  Date.year_text (year d) = Date.zero_padded 4 (year d).
Proof.
  intros [_ Hy%N.leb_le]%andb_prop. unfold Date.year_text, Date.year_width.
  by rewrite !(proj2 (N.ltb_ge _ _)) by lia.
Qed.

Lemma length_zero_padded width n :
  String.length (Date.zero_padded width n) = width.
Proof.
  revert n. induction width as [|w IH]; intros n; [done|].
  simpl. by rewrite IH.
Qed.

Lemma year_width_bound (y : N) :
  (y ≤ 9999)%N → (y < 10 ^ N.of_nat (Date.year_width y))%N.
Proof.
  intros Hy. unfold Date.year_width.
  destruct (N.ltb_spec y 10); [simpl; lia|].
  destruct (N.ltb_spec y 100); [simpl; lia|].
  destruct (N.ltb_spec y 1000); simpl; lia.
Qed.

(** Partition file names of one currency compare as their days do,
    for years that take four digits. *)
Lemma partition_name_compare currency (a b : datetime) :
  Date.four_digit_year a = true → Date.four_digit_year b = true →
  String.compare (partition_name currency a) (partition_name currency b)
  = Date.compare (Date.floor a) (Date.floor b).
Proof.
  intros Ha Hb. unfold partition_name, Date.strftime_Ymd.
  rewrite !four_digit_year_text by done.
  apply four_digit_year_valid, valid_bounds in Ha, Hb.
  rewrite !compare_common_prefix, !append_assoc.
  rewrite zero_padded_compare by (simpl; lia).
  rewrite zero_padded_compare by (simpl; lia).
  rewrite zero_padded_compare by (simpl; lia).
  rewrite compare_refl, compare_floor.
  by destruct (year a ?= year b)%N, (month a ?= month b)%N,
    (day a ?= day b)%N.
Qed.

(** Two dates that give one file name fall on the same day, whatever
    their years: a shorter year gives a shorter name. *)
Lemma partition_name_day currency (a b : datetime) :
  Date.valid a = true → Date.valid b = true →
  partition_name currency a = partition_name currency b →
  Date.floor a = Date.floor b.
Proof.
  intros Ha%valid_bounds Hb%valid_bounds Hname.
  assert (Hwidth : Date.year_width (year a) = Date.year_width (year b)).
  { apply (f_equal String.length) in Hname.
    unfold partition_name, Date.strftime_Ymd, Date.year_text in Hname.
    rewrite !length_append, !length_zero_padded in Hname. lia. }
  assert (Hcompare : String.compare (partition_name currency a)
                       (partition_name currency b) = Eq)
    by (rewrite Hname; apply compare_refl).
  unfold partition_name, Date.strftime_Ymd, Date.year_text in Hcompare.
  pose proof (year_width_bound (year a) ltac:(lia)) as Wa.
  pose proof (year_width_bound (year b) ltac:(lia)) as Wb.
  rewrite Hwidth in Hcompare, Wa.
  rewrite !compare_common_prefix, !append_assoc in Hcompare.
  rewrite zero_padded_compare in Hcompare by done.
  rewrite zero_padded_compare in Hcompare by (simpl; lia).
  rewrite zero_padded_compare in Hcompare by (simpl; lia).
  unfold Date.floor, Date.midnight.
  destruct (N.compare_spec (year a) (year b)) as [-> | |];
    try discriminate Hcompare.
  destruct (N.compare_spec (month a) (month b)) as [-> | |];
    try discriminate Hcompare.
  destruct (N.compare_spec (day a) (day b)) as [-> | |];
    try discriminate Hcompare.
  reflexivity.
Qed.

End Names.

Section Parsing.

Lemma below_ten (P : N → Prop) :
  P 0%N → P 1%N → P 2%N → P 3%N → P 4%N → P 5%N → P 6%N → P 7%N →
  P 8%N → P 9%N → ∀ q, (q < 10)%N → P q.
Proof.
  intros ? ? ? ? ? ? ? ? ? ? q Hq.
  destruct q as [|p]; [done|].
  do 9 (destruct p as [p|p|]; try lia; try done).
Qed.

Lemma read_digit_digit (q : N) :
  (q < 10)%N →
  ∀ rest, Date.read_digit (String (Date.digit q) rest) = Some (q, rest).
Proof.
  revert q.
  apply (below_ten (fun q => ∀ rest, Date.read_digit (String (Date.digit q) rest)
                                     = Some (q, rest)));
    intros rest; reflexivity.
Qed.

Lemma digit_not_underscore (q : N) :
  Ascii.eqb (Date.digit q) "_"%char = false.
Proof.
  unfold Date.digit.
  assert (H : (q `mod` 10 < 10)%N) by (apply N.mod_lt; lia).
  revert H. generalize (q `mod` 10)%N. by apply below_ten.
Qed.

Lemma zero_padded_4 (n : N) :
  Date.zero_padded 4 n =
  String (Date.digit (n / 1000))
    (String (Date.digit (n `mod` 1000 / 100))
       (String (Date.digit ((n `mod` 1000) `mod` 100 / 10))
          (String (Date.digit (((n `mod` 1000) `mod` 100) `mod` 10 / 1)) ""))).
Proof. reflexivity. Qed.

(** Every month and every day of a month, printed on two digits, is
    read back by the parser, with nothing left over. *)
Lemma month_then_day_all :
  Forall (fun m =>
    Forall (fun d =>
      Date.month_then_day (Date.zero_padded 2 m +:+ Date.zero_padded 2 d)
      = Some (m, d, ""))
      (N.of_nat <$> seq 1 31))
    (N.of_nat <$> seq 1 12).
Proof. compute_done. Qed.

Lemma month_then_day_padded (m d : N) :
  (1 ≤ m ≤ 12)%N → (1 ≤ d ≤ 31)%N →
  Date.month_then_day (Date.zero_padded 2 m +:+ Date.zero_padded 2 d)
  = Some (m, d, "").
Proof.
  intros Hm Hd.
  pose proof month_then_day_all as Hall.
  rewrite Forall_forall in Hall.
  specialize (Hall m). rewrite Forall_forall in Hall. apply Hall.
  - apply list_elem_of_fmap. exists (N.to_nat m).
    split; [lia|]. apply elem_of_seq. lia.
  - apply list_elem_of_fmap. exists (N.to_nat d).
    split; [lia|]. apply elem_of_seq. lia.
Qed.

Lemma valid_floor d : Date.valid d = true → Date.valid (Date.floor d) = true.
Proof.
  unfold Date.valid. simpl. rewrite !andb_true_iff.
  intros (((((((((? & ?) & ?) & ?) & ?) & ?) & _) & _) & _) & _).
  repeat split; assumption.
Qed.

(** Parsing the date text of a date whose year takes four digits
    gives the date back, at midnight. *)
Lemma strptime_strftime d :
  Date.four_digit_year d = true →
  Date.strptime_Ymd (Date.strftime_Ymd d) = Ok (Date.floor d).
Proof.
  intros Hfour. pose proof (four_digit_year_valid d Hfour) as Hvalid.
  pose proof (valid_bounds d Hvalid) as (Hy & Hm & Hd).
  unfold Date.strftime_Ymd. rewrite (four_digit_year_text d Hfour).
  rewrite zero_padded_4, !append_cons.
  unfold Date.strptime_Ymd, Date.four_digits.
  assert (Hdiv : ∀ a b : N, (b ≠ 0)%N → (a < 10 * b)%N → (a / b < 10)%N).
  { intros a b Hb Hab. apply N.Div0.div_lt_upper_bound. lia. }
  pose proof (N.mod_lt (year d) 1000 ltac:(lia)).
  pose proof (N.mod_lt (year d `mod` 1000) 100 ltac:(lia)).
  pose proof (N.mod_lt ((year d `mod` 1000) `mod` 100) 10 ltac:(lia)).
  rewrite !read_digit_digit by (apply Hdiv; lia).
  change ("" +:+ ?s) with s.
  rewrite month_then_day_padded by done.
  assert (Hyear : (1000 * (year d / 1000)
                   + 100 * (year d `mod` 1000 / 100)
                   + 10 * ((year d `mod` 1000) `mod` 100 / 10)
                   + ((year d `mod` 1000) `mod` 100) `mod` 10 / 1
                   = year d)%N).
  { rewrite N.div_1_r.
    pose proof (N.div_mod (year d) 1000 ltac:(lia)).
    pose proof (N.div_mod (year d `mod` 1000) 100 ltac:(lia)).
    pose proof (N.div_mod ((year d `mod` 1000) `mod` 100) 10 ltac:(lia)).
    lia. }
  rewrite Hyear. fold (Date.floor d). by rewrite (valid_floor d Hvalid).
Qed.

End Parsing.

Section Paths.

Lemma rfind_dot_parquet (p : string) :
  Path.rfind_dot (p +:+ ".parquet") = Some (String.length p).
Proof.
  induction p as [|c p IH]; [done|].
  rewrite append_cons. simpl. by rewrite IH.
Qed.

Lemma substring_prefix (p s : string) :
  String.substring 0 (String.length p) (p +:+ s) = p.
Proof.
  induction p as [|c p IH]; simpl.
  - by destruct s.
  - rewrite ?append_cons. by rewrite IH.
Qed.

Lemma substring_suffix (p s : string) :
  String.substring (String.length p) (String.length s) (p +:+ s) = s.
Proof.
  induction p as [|c p IH]; simpl.
  - change ("" +:+ s) with s. induction s as [|c s IHs]; [done|].
    simpl. by rewrite IHs.
  - by rewrite ?append_cons.
Qed.

Lemma stem_parquet (p : string) :
  p ≠ "" → Path.stem (p +:+ ".parquet") = p.
Proof.
  intros Hp. unfold Path.stem.
  rewrite rfind_dot_parquet, length_append.
  destruct p as [|c p]; [done|].
  replace ((0 <? String.length (String c p))
           && (String.length (String c p)
               <? String.length (String c p)
                  + String.length ".parquet" - 1))%nat
    with true.
  - apply substring_prefix.
  - symmetry. apply andb_true_iff. simpl.
    split; [done|]. apply Nat.ltb_lt. lia.
Qed.

Lemma split_underscore_append (a b : string) :
  Path.split_underscore a = [a] → Path.split_underscore b = [b] →
  Path.split_underscore (a +:+ b) = [a +:+ b].
Proof.
  intros Ha Hb. induction a as [|c a IH]; [done|].
  rewrite append_cons. simpl in *.
  destruct (Ascii.eqb c "_"); [discriminate Ha|].
  destruct (Path.split_underscore a) as [|field fields] eqn:Hsplit.
  - injection Ha as <-. by rewrite IH.
  - injection Ha as -> ->. by rewrite IH.
Qed.

Lemma split_underscore_padded width n :
  Path.split_underscore (Date.zero_padded width n)
  = [Date.zero_padded width n].
Proof.
  revert n. induction width as [|w IH]; intros n; [done|].
  simpl. by rewrite digit_not_underscore, IH.
Qed.

Lemma split_underscore_date d :
  Path.split_underscore (Date.strftime_Ymd d) = [Date.strftime_Ymd d].
Proof.
  unfold Date.strftime_Ymd, Date.year_text.
  repeat apply split_underscore_append; apply split_underscore_padded.
Qed.

Lemma split_underscore_last (p field : string) :
  Path.split_underscore field = [field] →
  ∃ first others,
    Path.split_underscore (p +:+ String "_" field)
    = first :: others ++ [field].
Proof.
  intros Hfield. induction p as [|c p (first & others & IH)].
  - exists "", []. change ("" +:+ ?s) with s. simpl. by rewrite Hfield.
  - rewrite append_cons. simpl. rewrite IH.
    destruct (Ascii.eqb c "_").
    + by exists "", (first :: others).
    + by exists (String c first), others.
Qed.

Lemma last_field_date (p : string) d :
  Path.last_field (p +:+ "_" +:+ Date.strftime_Ymd d) = Date.strftime_Ymd d.
Proof.
  unfold Path.last_field.
  destruct (split_underscore_last p _ (split_underscore_date d))
    as (first & others & Hsplit).
  change ("_" +:+ ?s) with (String "_" s). rewrite Hsplit.
  change (first :: others ++ [Date.strftime_Ymd d])
    with ((first :: others) ++ [Date.strftime_Ymd d]).
  apply last_last.
Qed.

(** The text the loop of [load_data] parses as the date of a
    partition file. *)
Lemma date_text_of_partition currency d :
  Path.last_field (Path.stem (partition_name currency d))
  = Date.strftime_Ymd d.
Proof.
  unfold partition_name.
  replace (currency +:+ "_options_" +:+ Date.strftime_Ymd d +:+ ".parquet")
    with ((currency +:+ "_options" +:+ "_" +:+ Date.strftime_Ymd d)
            +:+ ".parquet").
  - rewrite stem_parquet.
    + replace (currency +:+ "_options" +:+ "_" +:+ Date.strftime_Ymd d)
        with ((currency +:+ "_options") +:+ "_" +:+ Date.strftime_Ymd d)
        by (by rewrite append_assoc).
      apply last_field_date.
    + destruct currency; discriminate.
  - rewrite !append_assoc. reflexivity.
Qed.

Lemma prefix_append (p s : string) : String.prefix p (p +:+ s) = true.
Proof.
  induction p as [|c p IH]; simpl; [by destruct s|].
  rewrite ?append_cons. destruct (ascii_dec c c); [exact IH|done].
Qed.

Lemma ends_with_unfold (suffix s : string) :
  Path.ends_with suffix s =
  String.eqb s suffix ||
  match s with
  | EmptyString => false
  | String _ rest => Path.ends_with suffix rest
  end.
Proof. by destruct s. Qed.

Lemma ends_with_append (p s : string) : Path.ends_with s (p +:+ s) = true.
Proof.
  induction p as [|c p IH].
  - change ("" +:+ s) with s.
    by rewrite ends_with_unfold, String.eqb_refl.
  - rewrite append_cons, ends_with_unfold, IH. apply orb_true_r.
Qed.

Lemma partition_name_matches currency d :
  Path.matches (currency +:+ "_options_") ".parquet"
    (partition_name currency d) = true.
Proof.
  unfold Path.matches, partition_name.
  set (rest := Date.strftime_Ymd d +:+ ".parquet").
  replace (currency +:+ "_options_" +:+ rest)
    with ((currency +:+ "_options_") +:+ rest) by apply append_assoc.
  rewrite prefix_append.
  replace (String.length ((currency +:+ "_options_") +:+ rest)
           - String.length (currency +:+ "_options_"))
    with (String.length rest) by (rewrite length_append; lia).
  rewrite substring_suffix. apply ends_with_append.
Qed.

End Paths.

(** ** Loading partitions *)

Section Load.

Variable currency : string.

Lemma out_of_range_partition start_date end_date d :
  Date.four_digit_year d = true →
  out_of_range start_date end_date (partition_name currency d)
  = Ok (negb (in_range start_date end_date d)).
Proof.
  intros Hvalid. unfold out_of_range, in_range.
  rewrite date_text_of_partition, (strptime_strftime d Hvalid).
  destruct start_date as [s|], end_date as [e|]; simpl; try done.
  - destruct (Date.ltb _ s); simpl; [done|]. by rewrite negb_involutive.
  - destruct (Date.ltb _ s); simpl; done.
  - by rewrite negb_involutive.
Qed.

Lemma load_loop_partitions start_date end_date ds :
  ∀ dfs w,
    Forall (fun d => Date.four_digit_year d = true) ds →
    Forall (fun d => readable currency (files w) d = true) ds →
    ∃ w',
      load_loop start_date end_date (map (partition_name currency) ds) dfs w
      = (Ok (dfs ++ map (rows_of currency (files w))
                      (filter (fun d => in_range start_date end_date d = true)
                              ds)),
         w') ∧
      files w' = files w.
Proof.
  induction ds as [|d ds IH]; intros dfs w Hvalid Hread.
  - exists w. simpl. by rewrite app_nil_r.
  - apply Forall_cons in Hvalid as [Hd Hvalid].
    apply Forall_cons in Hread as [Hrd Hread].
    simpl. unfold bind, lift. rewrite (out_of_range_partition _ _ _ Hd).
    destruct (in_range start_date end_date d) eqn:Hin; simpl.
    + rewrite filter_cons_True by done.
      unfold read_parquet, readable, rows_of in *.
      destruct (files w !! partition_name currency d) as [[rows|]|] eqn:Hfile;
        try discriminate Hrd.
      simpl. set (w1 := World _ _ _ _ _ _ _).
      destruct (IH (dfs ++ [rows]) w1 Hvalid Hread) as (w' & Hloop & Hfiles).
      exists w'. rewrite Hloop. simpl. rewrite Hfile, <- app_assoc. done.
    + rewrite filter_cons_False by (by rewrite Hin).
      apply IH; done.
Qed.

Lemma names_sorted ds :
  Forall (fun d => Date.four_digit_year d = true) ds →
  StronglySorted day_lt ds →
  StronglySorted String.le (map (partition_name currency) ds) ∧
  NoDup (map (partition_name currency) ds).
Proof.
  intros Hvalid Hsorted.
  induction Hsorted as [|d ds Hsorted IH Hhead]; simpl.
  - split; constructor.
  - apply Forall_cons in Hvalid as [Hd Hvalid].
    destruct (IH Hvalid) as [IHs IHn].
    assert (Hlt : Forall (fun name =>
                            String.compare (partition_name currency d) name
                            = Lt)
                         (map (partition_name currency) ds)).
    { apply Forall_forall. intros name [d' [<- Hd']]%list_elem_of_In%in_map_iff.
      rewrite Forall_forall in Hvalid, Hhead.
      apply list_elem_of_In in Hd'.
      rewrite partition_name_compare by auto. by apply Hhead. }
    split.
    + constructor; [done|].
      eapply Forall_impl; [exact Hlt|].
      intros name Hname. unfold String.le, String.leb. by rewrite Hname.
    + constructor; [|done].
      intros Hin. rewrite Forall_forall in Hlt.
      specialize (Hlt _ Hin). by rewrite compare_refl in Hlt.
Qed.

(** The sorted listing of the partition files is the list of their
    names in the order of their days. *)
Lemma glob_sorted_partitions ds w :
  Forall (fun d => Date.four_digit_year d = true) ds →
  StronglySorted day_lt ds →
  glob currency (files w) ≡ₚ map (partition_name currency) ds →
  glob_sorted currency w = (Ok (map (partition_name currency) ds), w).
Proof.
  intros Hvalid Hsorted Hglob. unfold glob_sorted. do 2 f_equal.
  destruct (names_sorted ds Hvalid Hsorted) as [Hnames _].
  apply (Sorted_unique String.le).
  - apply Sorted_merge_sort; apply _.
  - by apply StronglySorted_Sorted.
  - by rewrite merge_sort_Permutation.
Qed.

(** What [load_data] returns over a directory whose partition files
    of the currency are those of the days [ds]. *)
Lemma load_data_partitions start_date end_date ds w :
  Forall (fun d => Date.four_digit_year d = true) ds →
  StronglySorted day_lt ds →
  glob currency (files w) ≡ₚ map (partition_name currency) ds →
  Forall (fun d => readable currency (files w) d = true) ds →
  fst (load_data currency start_date end_date w)
  = Ok (concat (map (rows_of currency (files w))
                  (filter (fun d => in_range start_date end_date d = true)
                          ds))).
Proof.
  intros Hvalid Hsorted Hglob Hread. unfold load_data, bind.
  rewrite (glob_sorted_partitions ds w Hvalid Hsorted Hglob).
  destruct ds as [|d ds]; [done|].
  change (map (partition_name currency) (d :: ds))
    with (partition_name currency d :: map (partition_name currency) ds)
    at 1.
  cbv beta iota.
  change (partition_name currency d :: map (partition_name currency) ds)
    with (map (partition_name currency) (d :: ds)).
  destruct (load_loop_partitions start_date end_date (d :: ds) [] w
              Hvalid Hread) as (w' & -> & _).
  rewrite app_nil_l.
  by destruct (map _ (filter _ _)).
Qed.

End Load.

Section LoadClaims.

Lemma in_range_unbounded (ds : list datetime) :
  filter (fun d => in_range None None d = true) ds = ds.
Proof.
  induction ds as [|d ds IH]; [done|].
  rewrite filter_cons_True by done. by rewrite IH.
Qed.

Lemma ltb_floor_self (e : datetime) : Date.ltb e (Date.floor e) = false.
Proof.
  unfold Date.ltb, Date.compare. simpl. rewrite !N.compare_refl. simpl.
  destruct (hour e), (minute e), (second e), (microsecond e); done.
Qed.

Lemma ltb_irrefl (a : datetime) : Date.ltb a a = false.
Proof. unfold Date.ltb, Date.compare. by rewrite !N.compare_refl. Qed.

(** The date test with a start that is a date, midnight of its day,
    is the test by calendar day. *)
Lemma in_range_by_day s e d :
  Date.floor s = s → in_range (Some s) (Some e) d = in_day_range s e d.
Proof.
  intros Hs. unfold in_range, in_day_range. rewrite Hs. f_equal. f_equal.
  unfold Date.ltb. rewrite compare_floor. unfold Date.compare. simpl.
  destruct (year e ?= year d)%N; simpl; try done.
  destruct (month e ?= month d)%N; simpl; try done.
  destruct (day e ?= day d)%N; simpl; try done.
  by destruct (hour e), (minute e), (second e), (microsecond e).
Qed.

Lemma compare_floor_refl a :
  Date.compare (Date.floor a) (Date.floor a) = Eq.
Proof. by rewrite compare_floor, !N.compare_refl. Qed.

Lemma filter_by_day s e (ds : list datetime) :
  Date.floor s = s →
  filter (fun d => in_range (Some s) (Some e) d = true) ds
  = filter (fun d => in_day_range s e d = true) ds.
Proof.
  intros Hs. apply list_filter_iff. intros d.
  by rewrite (in_range_by_day s e d Hs).
Qed.

(** C5: for dates whose year takes four digits, the day of one comes
    before the day of the other exactly when its partition file name
    comes before the other's in the order of strings; the sorted
    listing of the partition files is in the order of their days,
    however the directory lists them, and loading with no range
    concatenates the partitions in that order. *)
Theorem partitions_sort_by_date currency d1 d2 ds w :
  Path.literal currency = true →
  Date.four_digit_year d1 = true → Date.four_digit_year d2 = true →
  Forall (fun d => Date.four_digit_year d = true) ds →
  StronglySorted day_lt ds →
  glob currency (files w) ≡ₚ map (partition_name currency) ds →
  Forall (fun d => readable currency (files w) d = true) ds →
  (day_lt d1 d2 ↔
   String.ltb (partition_name currency d1) (partition_name currency d2)
   = true) ∧
  fst (glob_sorted currency w) = Ok (map (partition_name currency) ds) ∧
  fst (load_data currency None None w)
  = Ok (concat (map (rows_of currency (files w)) ds)).
Proof.
  intros _ H1 H2 Hvalid Hsorted Hglob Hread. split; [|split].
  - unfold day_lt, String.ltb.
    rewrite (partition_name_compare currency d1 d2 H1 H2).
    by destruct (Date.compare _ _).
  - by rewrite (glob_sorted_partitions currency ds w Hvalid Hsorted Hglob).
  - rewrite (load_data_partitions currency None None ds w
               Hvalid Hsorted Hglob Hread).
    by rewrite in_range_unbounded.
Qed.

Lemma partitions_sort_by_date_witness :
  (day_lt jan15 mar01 ↔
   String.ltb "BTC_options_20240115.parquet" "BTC_options_20240301.parquet"
   = true) ∧
  fst (glob_sorted "BTC" world_march_first)
  = Ok ["BTC_options_20240115.parquet"; "BTC_options_20240301.parquet"] ∧
  fst (load_data "BTC" None None world_march_first)
  = Ok [sample_row "A" jan15; sample_row "B" mar01].
Proof.
  apply (partitions_sort_by_date "BTC" jan15 mar01 [jan15; mar01]
           world_march_first).
  - reflexivity.
  - reflexivity.
  - reflexivity.
  - repeat constructor.
  - repeat constructor.
  - compute_done.
  - repeat constructor.
Defined.

(** C6: over a directory whose partition files of the currency are
    readable, loading with a range of dates, from the date [s] to the
    instant [e], returns, in the order of the days, exactly the rows
    of the partitions whose day is neither before the day of [s] nor
    after the day of [e]: a partition dated on the day of the start or
    on the day of the end is included, one outside is left out. It
    returns the empty sequence and raises nothing when no partition
    is in the range, or when there is none at all. *)
Theorem load_data_date_filter currency s e ds w :
  Path.literal currency = true →
  Forall (fun d => Date.four_digit_year d = true) ds →
  StronglySorted day_lt ds →
  glob currency (files w) ≡ₚ map (partition_name currency) ds →
  Forall (fun d => readable currency (files w) d = true) ds →
  Date.floor s = s →
  fst (load_data currency (Some s) (Some e) w)
  = Ok (concat (map (rows_of currency (files w))
                  (filter (fun d => in_day_range s e d = true) ds))) ∧
  (∀ d, Date.floor d = Date.floor s → ¬ day_lt e d →
        in_day_range s e d = true) ∧
  (∀ d, Date.floor d = Date.floor e → ¬ day_lt d s →
        in_day_range s e d = true) ∧
  (∀ d, day_lt d s ∨ day_lt e d → in_day_range s e d = false) ∧
  (Forall (fun d => in_day_range s e d = false) ds →
   fst (load_data currency (Some s) (Some e) w) = Ok []).
Proof.
  intros _ Hvalid Hsorted Hglob Hread Hs.
  assert (Hload : fst (load_data currency (Some s) (Some e) w)
            = Ok (concat (map (rows_of currency (files w))
                            (filter (fun d => in_day_range s e d = true) ds)))).
  { rewrite (load_data_partitions currency (Some s) (Some e) ds w
               Hvalid Hsorted Hglob Hread).
    by rewrite (filter_by_day s e ds Hs). }
  split; [exact Hload|]. unfold in_day_range, day_lt, Date.ltb.
  split; [|split; [|split]].
  - intros d Hd Hend. rewrite Hd in Hend |- *. rewrite compare_floor_refl.
    simpl. by destruct (Date.compare (Date.floor e) (Date.floor s)).
  - intros d Hd Hstart. rewrite Hd in Hstart |- *. rewrite compare_floor_refl.
    rewrite andb_true_r.
    by destruct (Date.compare (Date.floor e) (Date.floor s)).
  - intros d [-> | ->]; [done|]. apply andb_false_r.
  - intros Hnone. rewrite Hload. f_equal.
    replace (filter (fun d => in_day_range s e d = true) ds) with (@nil datetime);
      [done|].
    symmetry. clear -Hnone. induction Hnone as [|d ds Hd _ IH]; [done|].
    rewrite filter_cons_False by (unfold in_day_range, Date.ltb in *; congruence).
    exact IH.
Qed.

Lemma load_data_date_filter_witness :
  fst (load_data "BTC" (Some jan15) (Some (Datetime 2024 1 16 8 0 0 0))
         world_three_days)
  = Ok [sample_row "B" jan15; sample_row "C" jan16] ∧
  fst (load_data "BTC" (Some mar01) (Some mar01) world_three_days) = Ok [].
Proof.
  split.
  - apply (load_data_date_filter "BTC" jan15
             (Datetime 2024 1 16 8 0 0 0) [jan14; jan15; jan16]
             world_three_days).
    + reflexivity.
    + repeat constructor.
    + repeat constructor.
    + compute_done.
    + repeat constructor.
    + reflexivity.
  - apply (load_data_date_filter "BTC" mar01 mar01
             [jan14; jan15; jan16] world_three_days).
    + reflexivity.
    + repeat constructor.
    + repeat constructor.
    + compute_done.
    + repeat constructor.
    + reflexivity.
    + repeat constructor.
Defined.

Lemma in_range_start_with_time s end_date d :
  Date.ltb (Date.floor s) s = true → Date.floor d = Date.floor s →
  in_range (Some s) end_date d = false.
Proof. intros Hs Hd. unfold in_range. by rewrite Hd, Hs. Qed.

(** X23: a start that has a time of day is compared as an instant:
    the partition of the day of the start, dated at midnight, comes
    before it and is left out of what a ranged load returns. *)
Theorem start_with_time_leaves_out_its_day currency s end_date ds w :
  Path.literal currency = true →
  Forall (fun d => Date.four_digit_year d = true) ds →
  StronglySorted day_lt ds →
  glob currency (files w) ≡ₚ map (partition_name currency) ds →
  Forall (fun d => readable currency (files w) d = true) ds →
  Date.ltb (Date.floor s) s = true →
  fst (load_data currency (Some s) end_date w)
  = Ok (concat (map (rows_of currency (files w))
                  (filter (fun d => in_range (Some s) end_date d = true)
                          ds))) ∧
  (∀ d, Date.floor d = Date.floor s →
        in_range (Some s) end_date d = false).
Proof.
  intros _ Hvalid Hsorted Hglob Hread Hs. split.
  - by apply load_data_partitions.
  - intros d Hd. by apply in_range_start_with_time.
Qed.

Lemma start_with_time_leaves_out_its_day_witness :
  fst (load_data "BTC" (Some (Datetime 2024 1 15 10 30 0 0)) (Some jan16)
         world_three_days)
  = Ok [sample_row "C" jan16].
Proof.
  apply (start_with_time_leaves_out_its_day "BTC"
           (Datetime 2024 1 15 10 30 0 0) (Some jan16) [jan14; jan15; jan16]
           world_three_days).
  - reflexivity.
  - repeat constructor.
  - repeat constructor.
  - compute_done.
  - repeat constructor.
  - reflexivity.
Defined.

End LoadClaims.

Section Witnesses.

Lemma save_to_parquet_read_failure_witness :
  fst (save_to_parquet "BTC" [sample_row "A" jan15] world_unreadable)
    = Raise StorageError ∧
  files (snd (save_to_parquet "BTC" [sample_row "A" jan15] world_unreadable))
    = files world_unreadable.
Proof.
  apply (save_to_parquet_read_failure "BTC"); [discriminate|].
  vm_compute. reflexivity.
Defined.


Lemma records_in_discovery_order_witness :
  ∃ data w',
    collect_options_data "BTC" world_z_missing = (Ok data, w') ∧
    map instrument_name data = [PStr "X"; PStr "Y"] ∧
    sublist (map instrument_name data) [PStr "X"; PStr "Z"; PStr "Y"].
Proof.
  apply (records_in_discovery_order "BTC"
           [sample_instrument "X"; sample_instrument "Z";
            sample_instrument "Y"]
           world_z_missing); reflexivity.
Defined.

End Witnesses.

(** * Further properties of the code *)

(** ** What a computation leaves alone *)

Section Frames.

Context {B : Type} (component : world → B).

Lemma keeps_ret {A} (a : A) : keeps component (ret a).
Proof. by intros w. Qed.

Lemma keeps_lift {A} (r : result A) : keeps component (lift r).
Proof. by intros w. Qed.

Lemma keeps_bind {A C} (c : M A) (k : A → M C) :
  keeps component c → (∀ a, keeps component (k a)) →
  keeps component (bind c k).
Proof.
  intros Hc Hk w. unfold bind. specialize (Hc w).
  destruct (c w) as [[a|e] w1]; simpl in *; [|done].
  by rewrite Hk.
Qed.

End Frames.

Ltac keeps_step :=
  first [ apply keeps_ret | apply keeps_lift
        | apply keeps_bind; [|intros ?] ].

Section FramesOfTheCollector.

Lemma emit_keeps_files e : keeps files (emit e).
Proof. by intros w. Qed.

Lemma emit_keeps_sent e : keeps sent (emit e).
Proof. by intros w. Qed.

Lemma emit_keeps_readings e : keeps readings (emit e).
Proof. by intros w. Qed.

Lemma now_keeps_files : keeps files now.
Proof. by intros w. Qed.

Lemma requests_get_keeps_files req : keeps files (requests_get req).
Proof. by intros w. Qed.

Lemma get_instruments_keeps_files currency kind expired :
  keeps files (get_instruments currency kind expired).
Proof.
  unfold get_instruments. keeps_step; [apply requests_get_keeps_files|].
  destruct (result_of _); repeat keeps_step. apply emit_keeps_files.
Qed.

Lemma get_orderbook_keeps_files name : keeps files (get_orderbook name).
Proof.
  unfold get_orderbook. keeps_step; [apply requests_get_keeps_files|].
  destruct (result_of _); repeat keeps_step. apply emit_keeps_files.
Qed.

Lemma collect_one_keeps_files total idx instrument data :
  keeps files (collect_one total idx instrument data).
Proof.
  unfold collect_one. generalize ((idx + 1) mod 10 =? 0)%nat as tenth.
  intros tenth.
  keeps_step; [keeps_step|].
  keeps_step; [apply get_orderbook_keeps_files|].
  keeps_step.
  - destruct (Py.truthy _); [|keeps_step].
    keeps_step; [apply now_keeps_files|]. repeat keeps_step.
  - keeps_step; [|keeps_step].
    destruct tenth; [|keeps_step].
    keeps_step; apply emit_keeps_files.
Qed.

Lemma collect_loop_keeps_files total instruments :
  ∀ idx data, keeps files (collect_loop total idx instruments data).
Proof.
  induction instruments as [|instrument rest IH]; intros idx data; simpl.
  - keeps_step.
  - keeps_step; [apply collect_one_keeps_files | apply IH].
Qed.

End FramesOfTheCollector.

Section FramesOfTheStore.

Context {B : Type} (component : world → B).
Hypothesis emit_keeps : ∀ e, keeps component (emit e).

Lemma read_parquet_keeps filename : keeps component (read_parquet filename).
Proof.
  intros w. unfold read_parquet. by destruct (files w !! filename) as [[]|].
Qed.

Lemma glob_sorted_keeps currency : keeps component (glob_sorted currency).
Proof. by intros w. Qed.

Lemma load_loop_keeps start_date end_date names :
  ∀ dfs, keeps component (load_loop start_date end_date names dfs).
Proof.
  induction names as [|name rest IH]; intros dfs; simpl.
  - keeps_step.
  - keeps_step; [keeps_step|]. destruct a; [apply IH|].
    keeps_step; [apply read_parquet_keeps|].
    keeps_step; [apply emit_keeps | apply IH].
Qed.

Lemma load_data_keeps currency start_date end_date :
  keeps component (load_data currency start_date end_date).
Proof.
  unfold load_data. keeps_step; [apply glob_sorted_keeps|].
  destruct a as [|name names].
  - keeps_step; [apply emit_keeps | keeps_step].
  - keeps_step; [apply load_loop_keeps|].
    destruct a as [|df dfs]; [keeps_step|].
    keeps_step; [apply emit_keeps | keeps_step].
Qed.

End FramesOfTheStore.

Section FrameProperties.

(** X1: fetching an order book never raises. When the request, the
    status check or the decoding fails it prints the error and returns
    [None]; otherwise it returns the [result] of the answer and prints
    nothing. Either way it makes exactly one request and writes no
    file. *)
Theorem get_orderbook_absorbs_failure name w :
  let answer := result_of (remote w (sent w) (GetOrderBook name)) in
  fst (get_orderbook name w)
    = Ok (match answer with Ok v => v | Raise _ => PNone end) ∧
  events (snd (get_orderbook name w))
    = events w ++ match answer with
                  | Ok _ => []
                  | Raise e => [Print (MsgErrorFor name e)]
                  end ∧
  sent (snd (get_orderbook name w)) = S (sent w) ∧
  files (snd (get_orderbook name w)) = files w.
Proof.
  unfold get_orderbook, bind, requests_get. simpl.
  destruct (result_of _); simpl; by rewrite ?app_nil_r.
Qed.

Lemma collect_options_data_keeps_files currency :
  keeps files (collect_options_data currency).
Proof.
  unfold collect_options_data.
  keeps_step; [apply emit_keeps_files|].
  keeps_step; [apply get_instruments_keeps_files|].
  keeps_step; [keeps_step|].
  keeps_step; [apply emit_keeps_files|].
  keeps_step; [keeps_step|].
  keeps_step; [apply collect_loop_keeps_files|].
  keeps_step; [apply emit_keeps_files | keeps_step].
Qed.

(** X2: a collection cycle never writes to the data directory,
    whatever upstream answers and whether the cycle returns or
    raises. *)
Theorem collect_options_data_writes_nothing currency w :
  files (snd (collect_options_data currency w)) = files w.
Proof. apply collect_options_data_keeps_files. Qed.

(** X3: loading only reads: it leaves every file of the directory as
    it was, sends no request and does not read the clock, whether it
    returns or raises. *)
Theorem load_data_only_reads currency start_date end_date w :
  files (snd (load_data currency start_date end_date w)) = files w ∧
  sent (snd (load_data currency start_date end_date w)) = sent w ∧
  readings (snd (load_data currency start_date end_date w)) = readings w.
Proof.
  split; [|split].
  - apply (load_data_keeps files emit_keeps_files).
  - apply (load_data_keeps sent emit_keeps_sent).
  - apply (load_data_keeps readings emit_keeps_readings).
Qed.

End FrameProperties.

(** ** When record assembly returns *)

Section AssemblyDomain.

Lemma nested_get_raises kvs outer inner :
  object_or_absent (Py.assoc outer kvs) = false →
  nested_get (PDict kvs) outer inner = Raise AttributeError.
Proof.
  unfold nested_get. simpl.
  by destruct (Py.assoc outer kvs) as [[]|].
Qed.

Lemma mid_price_of_raises kvs :
  (let bid := stored (Py.assoc "best_bid_price" kvs) in
   let ask := stored (Py.assoc "best_ask_price" kvs) in
   negb (Py.truthy bid && Py.truthy ask) || mean_defined bid ask) = false →
  ∃ e, mid_price_of (PDict kvs) = Raise e.
Proof.
  unfold mid_price_of, stored. simpl.
  destruct (Py.assoc "best_bid_price" kvs) as [bid|]; simpl; [|done].
  destruct (Py.truthy bid) eqn:Hbid; simpl; [|done].
  destruct (Py.assoc "best_ask_price" kvs) as [ask|]; simpl; [|done].
  destruct (Py.truthy ask) eqn:Hask; simpl; [|done].
  apply mean_raises.
Qed.

Lemma contract_keys_present instrument :
  has_contract_keys instrument = true →
  ∃ kvs, instrument = PDict kvs ∧
         is_Some (Py.assoc "expiration_timestamp" kvs) ∧
         is_Some (Py.assoc "strike" kvs) ∧
         is_Some (Py.assoc "option_type" kvs).
Proof.
  destruct instrument as [| | | | | |kvs]; try discriminate. simpl.
  intros [[He%bool_decide_eq_true Hs%bool_decide_eq_true]%andb_prop
          Ht%bool_decide_eq_true]%andb_prop.
  by exists kvs.
Qed.

Lemma assemble_raises_without_keys now name instrument orderbook :
  has_contract_keys instrument = false →
  ∃ e, assemble now name instrument orderbook = Raise e.
Proof.
  unfold assemble.
  destruct instrument as [| | | | | |kvs]; simpl; eauto.
  destruct (Py.assoc "expiration_timestamp" kvs); simpl; eauto.
  destruct (Py.assoc "strike" kvs); simpl; eauto.
  destruct (Py.assoc "option_type" kvs); simpl; eauto.
  by rewrite ?bool_decide_eq_true_2 by eauto.
Qed.

Lemma assemble_raises_malformed now name instrument orderbook :
  has_contract_keys instrument = true →
  snapshot_ok orderbook = false →
  ∃ e, assemble now name instrument orderbook = Raise e.
Proof.
  intros (ikvs & -> & He & Hs & Ht)%contract_keys_present Hbad.
  unfold assemble. rewrite !getitem_present by done.
  destruct orderbook as [| | | | | |kvs]; simpl; eauto.
  rewrite !price_or_none_dict. simpl in Hbad.
  destruct (object_or_absent (Py.assoc "greeks" kvs)) eqn:Hg; simpl in Hbad.
  - destruct (object_or_absent (Py.assoc "stats" kvs)) eqn:Hst; simpl in Hbad.
    + destruct (mid_price_of_raises kvs Hbad) as [e ->]. simpl. eauto.
    + destruct (mid_price_of (PDict kvs)); simpl; eauto.
      rewrite !(nested_get_dict _ "greeks") by done.
      rewrite (nested_get_raises _ "stats") by done. simpl. eauto.
  - destruct (mid_price_of (PDict kvs)); simpl; eauto.
    rewrite (nested_get_raises _ "greeks") by done. simpl. eauto.
Qed.

Lemma assemble_returns_with_keys now name instrument kvs :
  has_contract_keys instrument = true →
  snapshot_ok (PDict kvs) = true →
  ∃ row,
    assemble now name instrument (PDict kvs) = Ok row ∧
    bid_price row =
      (if Py.truthy (stored (Py.assoc "best_bid_price" kvs))
       then stored (Py.assoc "best_bid_price" kvs) else PNone) ∧
    ask_price row =
      (if Py.truthy (stored (Py.assoc "best_ask_price" kvs))
       then stored (Py.assoc "best_ask_price" kvs) else PNone) ∧
    mid_price row = mid_of kvs.
Proof.
  intros (ikvs & -> & He & Hs & Ht)%contract_keys_present Hsnap.
  pose proof Hsnap as Hsub. simpl in Hsub.
  apply andb_prop in Hsub as [[Hg Hst]%andb_prop _].
  unfold assemble.
  rewrite !getitem_present by done.
  rewrite !price_or_none_dict, (mid_price_of_dict _ Hsnap).
  rewrite !(nested_get_dict _ "greeks") by done.
  rewrite (nested_get_dict _ "stats") by done.
  simpl. eexists. split; [reflexivity|]. simpl. repeat split.
Qed.

(** X4: record assembly returns a record exactly when the instrument
    is an object with the keys [expiration_timestamp], [strike] and
    [option_type], and the snapshot is an object whose [greeks] and
    [stats], when there, are objects, and whose best bid and best ask
    are numbers when both are truthy; on any other input it raises. *)
Theorem assemble_returns_iff now name instrument orderbook :
  (∃ row, assemble now name instrument orderbook = Ok row) ↔
  has_contract_keys instrument = true ∧ snapshot_ok orderbook = true.
Proof.
  split.
  - intros [row Hrow].
    destruct (has_contract_keys instrument) eqn:Hkeys.
    + destruct (snapshot_ok orderbook) eqn:Hsnap; [done|].
      destruct (assemble_raises_malformed now name instrument orderbook
                  Hkeys Hsnap) as [e He].
      congruence.
    + destruct (assemble_raises_without_keys now name instrument orderbook
                  Hkeys) as [e He].
      congruence.
  - intros [Hkeys Hsnap].
    destruct (snapshot_ok_dict _ Hsnap) as [kvs ->].
    destruct (assemble_returns_with_keys now name instrument kvs Hkeys Hsnap)
      as (row & Hrow & _).
    eauto.
Qed.

End AssemblyDomain.

Section MidPrice.

Lemma stored_gate_none v :
  (if Py.truthy v then v else PNone) = PNone ↔ Py.truthy v = false.
Proof.
  destruct (Py.truthy v) eqn:Hv; split; try done.
  intros ->. discriminate Hv.
Qed.

Lemma mean_of_not_none bid ask :
  mean_defined bid ask = true → mean_of bid ask ≠ PNone.
Proof.
  intros (sum & Hsum & Hhalf)%mean_returns. revert Hhalf.
  unfold Py.half.
  destruct (Py.as_number sum) as [[z|f]|]; [| |done].
  - destruct (Py.nearest_double z (-1)); [|done]. by intros [= <-].
  - by intros [= <-].
Qed.

(** X5: in a record assembled from a well-formed snapshot the mid
    price is null exactly when the stored bid price or the stored ask
    price is null; and when both are stored as floats the mid price
    is the sum of the two doubles, halved. *)
Theorem mid_price_agrees_with_stored_sides now name instrument kvs :
  has_contract_keys instrument = true →
  snapshot_ok (PDict kvs) = true →
  ∃ row,
    assemble now name instrument (PDict kvs) = Ok row ∧
    (mid_price row = PNone ↔ bid_price row = PNone ∨ ask_price row = PNone) ∧
    (∀ b a : float,
       bid_price row = PFloat b → ask_price row = PFloat a →
       mid_price row = PFloat ((b + a) / 2)).
Proof.
  intros Hkeys Hsnap.
  destruct (assemble_returns_with_keys now name instrument kvs Hkeys Hsnap)
    as (row & Hrow & Hbid & Hask & Hmid).
  exists row. split; [done|]. rewrite Hbid, Hask, Hmid.
  simpl in Hsnap. apply andb_prop in Hsnap as [_ Hpair].
  unfold mid_of. unfold stored in *.
  set (bid := from_option id PNone (Py.assoc "best_bid_price" kvs)) in *.
  set (ask := from_option id PNone (Py.assoc "best_ask_price" kvs)) in *.
  split.
  - rewrite !stored_gate_none.
    destruct (Py.truthy bid) eqn:Tb, (Py.truthy ask) eqn:Ta; simpl in *;
      try (split; [auto | done]).
    split; [by intros ?%mean_of_not_none | by intros [|]].
  - intros b a Hb Ha.
    destruct (Py.truthy bid) eqn:Tb; [|discriminate Hb].
    destruct (Py.truthy ask) eqn:Ta; [|discriminate Ha].
    by rewrite Hb, Ha.
Qed.

Lemma mid_price_agrees_with_stored_sides_witness :
  ∃ row,
    assemble sample_day (PStr "X") (sample_instrument "X")
      snapshot_two_sided = Ok row ∧
    mid_price row = PFloat ((4 + 6) / 2).
Proof.
  destruct (mid_price_agrees_with_stored_sides sample_day (PStr "X")
              (sample_instrument "X")
              [("best_bid_price", PFloat 4); ("best_ask_price", PFloat 6);
               ("greeks", PDict [("delta", PFloat 0)])]
              eq_refl eq_refl) as (row & Hrow & _ & Hmean).
  exists row. split; [exact Hrow|].
  apply Hmean; vm_compute in Hrow; by injection Hrow as <-.
Defined.

End MidPrice.

(** ** The trace of a cycle: pauses and clock readings *)

Section Trace.

Lemma pauses_app (l1 l2 : list event) :
  pauses (l1 ++ l2) = pauses l1 ++ pauses l2.
Proof. apply omap_app. Qed.

Lemma get_orderbook_trace name w :
  ∃ w',
    get_orderbook name w
      = (Ok (orderbook_of (remote w) (sent w) name), w') ∧
    clock w' = clock w ∧ readings w' = readings w ∧
    remote w' = remote w ∧ sent w' = S (sent w) ∧
    pauses (events w') = pauses (events w).
Proof.
  unfold get_orderbook, orderbook_of, bind, requests_get. simpl.
  destruct (result_of _); simpl; eexists; (split; [reflexivity|]); simpl;
    rewrite ?pauses_app, ?app_nil_r; done.
Qed.

Lemma tenth_step (idx : nat) :
  (if ((idx + 1) mod 10 =? 0)%nat then 1 else 0)
  = (idx + 1) / 10 - idx / 10.
Proof.
  pose proof (Nat.div_mod_eq (idx + 1) 10).
  pose proof (Nat.div_mod_eq idx 10).
  pose proof (Nat.mod_upper_bound (idx + 1) 10 ltac:(lia)).
  pose proof (Nat.mod_upper_bound idx 10 ltac:(lia)).
  destruct (Nat.eqb_spec ((idx + 1) mod 10) 0); lia.
Qed.

Lemma collect_one_trace total idx instrument data w :
  instrument_ok instrument = true →
  (has_data (remote w) (sent w) instrument = true →
   snapshot_ok (orderbook_of (remote w) (sent w) (name_of instrument))
     = true) →
  ∃ new w',
    collect_one total idx instrument data w = (Ok (data ++ new), w') ∧
    map timestamp new = map (clock w) (seq (readings w) (length new)) ∧
    readings w' = readings w + length new ∧
    clock w' = clock w ∧ remote w' = remote w ∧ sent w' = S (sent w) ∧
    pauses (events w')
      = pauses (events w) ++ replicate ((idx + 1) / 10 - idx / 10) 500.
Proof.
  intros Hinst Hsnap. rewrite <- tenth_step.
  unfold collect_one, bind, lift.
  generalize ((idx + 1) mod 10 =? 0)%nat as tenth. intros tenth.
  rewrite (instrument_ok_name _ Hinst).
  destruct (get_orderbook_trace (name_of instrument) w)
    as (w1 & -> & Hclock & Hread & Hremote & Hsent & Hpauses).
  unfold has_data in *.
  destruct (Py.truthy _) eqn:Hdata.
  - specialize (Hsnap eq_refl).
    destruct (snapshot_ok_dict _ Hsnap) as [kvs Hkvs].
    rewrite Hkvs in Hsnap |- *.
    destruct (assemble_returns (clock w1 (readings w1)) (name_of instrument)
                instrument kvs Hinst Hsnap) as (row & Hrow & Hstamp & _).
    unfold now. simpl. rewrite Hrow. simpl.
    exists [row].
    destruct tenth; simpl;
      (eexists; split; [reflexivity|]); simpl;
      rewrite ?pauses_app, Hstamp, Hclock, Hread, Hpauses; simpl;
      rewrite ?app_nil_r; repeat split; try done; lia.
  - exists []. rewrite app_nil_r.
    destruct tenth; simpl; (eexists; split; [reflexivity|]); simpl;
      rewrite ?pauses_app, Hpauses; simpl;
      rewrite ?app_nil_r; repeat split; try done; lia.
Qed.

Lemma collect_loop_trace total instruments :
  ∀ idx data w,
    batch_ok (remote w) (sent w) instruments = true →
    ∃ new w',
      collect_loop total idx instruments data w = (Ok (data ++ new), w') ∧
      map timestamp new = map (clock w) (seq (readings w) (length new)) ∧
      readings w' = readings w + length new ∧
      clock w' = clock w ∧
      pauses (events w')
        = pauses (events w)
            ++ replicate ((idx + length instruments) / 10 - idx / 10) 500.
Proof.
  induction instruments as [|instrument rest IH]; intros idx data w Hok.
  - exists [], w. cbn [collect_loop length map seq].
    rewrite app_nil_r, !Nat.add_0_r, Nat.sub_diag. cbn [replicate].
    by rewrite app_nil_r.
  - simpl in Hok.
    apply andb_prop in Hok as [[Hinst Hsnap]%andb_prop Hrest].
    destruct (collect_one_trace total idx instrument data w Hinst)
      as (new1 & w1 & Hone & Hstamp1 & Hread1 & Hclock1 & Hremote1 & Hsent1
          & Hpause1).
    { intros Hdata. rewrite Hdata in Hsnap. exact Hsnap. }
    rewrite <- Hremote1, <- Hsent1 in Hrest.
    destruct (IH (S idx) (data ++ new1) w1 Hrest)
      as (new2 & w2 & Hloop & Hstamp2 & Hread2 & Hclock2 & Hpause2).
    exists (new1 ++ new2), w2.
    cbn [collect_loop length]. unfold bind. rewrite Hone, Hloop, <- app_assoc.
    split; [done|].
    rewrite map_app, length_app, seq_app, map_app, Hstamp1, Hstamp2.
    rewrite Hread1, Hclock1 in *.
    split; [done|]. split; [lia|]. split; [done|].
    rewrite Hpause2, Hpause1, <- app_assoc, <- replicate_add.
    do 2 f_equal.
    pose proof (Nat.Div0.div_le_mono idx (idx + 1) 10 ltac:(lia)).
    pose proof (Nat.Div0.div_le_mono (idx + 1) (S idx + length rest) 10
                  ltac:(lia)).
    replace (idx + S (length rest)) with (S idx + length rest) by lia.
    replace (S idx / 10) with ((idx + 1) / 10)
      by (f_equal; lia).
    lia.
Qed.

Lemma collect_options_data_trace currency instruments w :
  result_of (remote w (sent w) (GetInstruments currency "option" "false"))
    = Ok (PList instruments) →
  batch_ok (remote w) (S (sent w)) instruments = true →
  ∃ data w',
    collect_options_data currency w = (Ok data, w') ∧
    map timestamp data = map (clock w) (seq (readings w) (length data)) ∧
    readings w' = readings w + length data ∧
    pauses (events w')
      = pauses (events w) ++ replicate (length instruments / 10) 500.
Proof.
  intros Hfound Hok.
  unfold collect_options_data, get_instruments, requests_get, print, emit,
    lift, bind. simpl. rewrite Hfound. simpl.
  set (w1 := World _ _ _ _ _ _ _).
  destruct (collect_loop_trace (length instruments) instruments 0 [] w1 Hok)
    as (data & w2 & Hloop & Hstamp & Hread & Hclock & Hpause).
  rewrite Hloop. simpl. exists data. eexists. split; [reflexivity|].
  simpl. rewrite pauses_app, Hpause. unfold w1. simpl.
  rewrite !pauses_app. simpl. rewrite !app_nil_r.
  rewrite Nat.sub_0_r. unfold w1 in Hstamp, Hread. simpl in Hstamp, Hread.
  done.
Qed.

End Trace.

Section TraceProperties.

(** X6: in a cycle over a well-formed batch the collector pauses for
    half a second after every tenth instrument and at no other time:
    the pauses of the cycle are as many as the whole tens in the
    number of instruments, each of 500 milliseconds. *)
Theorem pause_after_every_tenth_instrument currency instruments w :
  result_of (remote w (sent w) (GetInstruments currency "option" "false"))
    = Ok (PList instruments) →
  batch_ok (remote w) (S (sent w)) instruments = true →
  ∃ data w',
    collect_options_data currency w = (Ok data, w') ∧
    pauses (events w')
      = pauses (events w) ++ replicate (length instruments / 10) 500.
Proof.
  intros Hfound Hok.
  destruct (collect_options_data_trace currency instruments w Hfound Hok)
    as (data & w' & Hrun & _ & _ & Hpauses).
  by exists data, w'.
Qed.

Lemma pause_after_every_tenth_instrument_witness :
  ∃ data w',
    collect_options_data "BTC" (world_answering twelve_names) = (Ok data, w') ∧
    pauses (events w') = [500].
Proof.
  apply (pause_after_every_tenth_instrument "BTC"
           (map sample_instrument twelve_names)
           (world_answering twelve_names)); reflexivity.
Defined.

(** X7: in a cycle over a well-formed batch the clock is read once per
    record and not otherwise, and the records carry the successive
    readings as their timestamps, in the order of the records. *)
Theorem timestamps_are_successive_readings currency instruments w :
  result_of (remote w (sent w) (GetInstruments currency "option" "false"))
    = Ok (PList instruments) →
  batch_ok (remote w) (S (sent w)) instruments = true →
  ∃ data w',
    collect_options_data currency w = (Ok data, w') ∧
    map timestamp data = map (clock w) (seq (readings w) (length data)) ∧
    readings w' = readings w + length data.
Proof.
  intros Hfound Hok.
  destruct (collect_options_data_trace currency instruments w Hfound Hok)
    as (data & w' & Hrun & Hstamp & Hread & _).
  by exists data, w'.
Qed.

Lemma timestamps_are_successive_readings_witness :
  ∃ data w',
    collect_options_data "BTC" (world_answering ["A"; "B"]) = (Ok data, w') ∧
    map timestamp data = map ticking (seq 0 (length data)) ∧
    readings w' = 0 + length data.
Proof.
  apply (timestamps_are_successive_readings "BTC"
           (map sample_instrument ["A"; "B"])
           (world_answering ["A"; "B"])); reflexivity.
Defined.

End TraceProperties.

(** ** A malformed answer ends the cycle *)

Section Abort.

Lemma collect_loop_app total l1 l2 :
  ∀ idx data w,
    collect_loop total idx (l1 ++ l2) data w
    = bind (collect_loop total idx l1 data)
           (fun data' => collect_loop total (idx + length l1) l2 data') w.
Proof.
  induction l1 as [|instrument l1 IH]; intros idx data w.
  - simpl. unfold bind, ret. by rewrite Nat.add_0_r.
  - cbn [app collect_loop length]. unfold bind.
    destruct (collect_one total idx instrument data w) as [[data1|e] w1];
      [|done].
    rewrite IH. unfold bind.
    by replace (S idx + length l1) with (idx + S (length l1)) by lia.
Qed.

Lemma instrument_ok_contract_keys instrument :
  instrument_ok instrument = true → has_contract_keys instrument = true.
Proof.
  destruct instrument as [| | | | | |kvs]; try discriminate. simpl.
  intros [[[_ He]%andb_prop Hs]%andb_prop Ht]%andb_prop.
  by rewrite He, Hs, Ht.
Qed.

Lemma collect_one_raises total idx instrument data w :
  instrument_ok instrument = true →
  has_data (remote w) (sent w) instrument = true →
  snapshot_ok (orderbook_of (remote w) (sent w) (name_of instrument))
    = false →
  ∃ e w',
    collect_one total idx instrument data w = (Raise e, w') ∧
    sent w' = S (sent w).
Proof.
  intros Hinst Hdata Hbad. unfold collect_one, bind, lift.
  generalize ((idx + 1) mod 10 =? 0)%nat as tenth. intros tenth.
  rewrite (instrument_ok_name _ Hinst).
  destruct (get_orderbook_returns (name_of instrument) w)
    as (w1 & -> & Hclock & Hread & Hremote & Hsent & Hfiles).
  unfold has_data in Hdata. rewrite Hdata.
  destruct (assemble_raises_malformed (clock w1 (readings w1))
              (name_of instrument) instrument _
              (instrument_ok_contract_keys _ Hinst) Hbad) as [e He].
  unfold now. simpl. rewrite He. simpl. by eexists _, _.
Qed.

(** X8: one malformed snapshot ends the whole cycle. When the
    instruments before it are well formed and the fetch of one
    instrument returns data that record assembly does not accept, the
    cycle raises at that instrument: it returns no record, not even
    those of the instruments before, and fetches none of the
    instruments after. *)
Theorem malformed_snapshot_aborts_cycle currency good bad rest w :
  result_of (remote w (sent w) (GetInstruments currency "option" "false"))
    = Ok (PList (good ++ bad :: rest)) →
  batch_ok (remote w) (S (sent w)) good = true →
  instrument_ok bad = true →
  has_data (remote w) (S (sent w) + length good) bad = true →
  snapshot_ok (orderbook_of (remote w) (S (sent w) + length good)
                 (name_of bad)) = false →
  ∃ e w',
    collect_options_data currency w = (Raise e, w') ∧
    sent w' = S (sent w) + length good + 1.
Proof.
  intros Hfound Hgood Hinst Hdata Hbad.
  unfold collect_options_data, get_instruments, requests_get, print, emit,
    lift, bind. simpl. rewrite Hfound. simpl.
  set (w1 := World _ _ _ _ _ _ _).
  rewrite collect_loop_app. unfold bind.
  destruct (collect_loop_returns (length (good ++ bad :: rest)) good 0 [] w1
              Hgood)
    as (data & w2 & -> & _ & Hremote & Hsent & _).
  cbn [collect_loop]. unfold bind.
  destruct (collect_one_raises (length (good ++ bad :: rest))
              (0 + length good) bad ([] ++ data) w2 Hinst)
    as (e & w3 & -> & Hsent3).
  - by rewrite Hremote, Hsent.
  - by rewrite Hremote, Hsent.
  - exists e, w3. split; [done|]. rewrite Hsent3, Hsent. unfold w1. simpl. lia.
Qed.

Lemma malformed_snapshot_aborts_cycle_witness :
  ∃ e w',
    collect_options_data "BTC" world_null_greeks = (Raise e, w') ∧
    sent w' = 1 + 1 + 1.
Proof.
  apply (malformed_snapshot_aborts_cycle "BTC" [sample_instrument "X"]
           (sample_instrument "Y") [sample_instrument "Z"]
           world_null_greeks); reflexivity.
Defined.

End Abort.

(** ** Partition files and their names *)

Section PartitionNames.

(** X9: for a day whose year takes four digits, the date [load_data]
    reads back from the name of a partition file is the day the file
    was named after, at midnight, whatever the currency symbol
    (underscores and dots included). *)
Theorem partition_date_round_trip currency d :
  Date.four_digit_year d = true →
  Date.strptime_Ymd (Path.last_field (Path.stem (partition_name currency d)))
  = Ok (Date.floor d).
Proof.
  intros Hfour. rewrite date_text_of_partition. by apply strptime_strftime.
Qed.

Lemma partition_date_round_trip_witness :
  Date.strptime_Ymd
    (Path.last_field
       (Path.stem (partition_name "BTC_USD.v2" (Datetime 2024 2 29 23 59 59 0))))
  = Ok (Date.midnight 2024 2 29).
Proof.
  apply (partition_date_round_trip "BTC_USD.v2"
           (Datetime 2024 2 29 23 59 59 0)).
  reflexivity.
Defined.


(** X10: one partition file per day: for valid dates, two dates give
    the same file name exactly when they fall on the same day. *)
Theorem one_partition_per_day currency d1 d2 :
  Date.valid d1 = true → Date.valid d2 = true →
  (partition_name currency d1 = partition_name currency d2 ↔
   Date.floor d1 = Date.floor d2).
Proof.
  intros H1 H2. split.
  - by apply partition_name_day.
  - apply partition_name_same_day.
Qed.

Lemma one_partition_per_day_witness :
  partition_name "ETH" (Datetime 2024 3 1 0 5 0 0)
  = partition_name "ETH" (Datetime 2024 3 1 23 55 0 0) ↔
  Date.floor (Datetime 2024 3 1 0 5 0 0)
  = Date.floor (Datetime 2024 3 1 23 55 0 0).
Proof.
  apply (one_partition_per_day "ETH"); reflexivity.
Defined.

Lemma prefix_cons (a b : ascii) (s t : string) :
  String.prefix (String a s) (String b t)
  = if ascii_dec a b then String.prefix s t else false.
Proof. reflexivity. Qed.

Lemma prefix_plain_symbols (c1 c2 r1 r2 : string) :
  plain_symbol c1 = true → plain_symbol c2 = true →
  String.prefix (c1 +:+ String "_" r1) (c2 +:+ String "_" r2) = true →
  c1 = c2.
Proof.
  revert c2. induction c1 as [|a c1 IH]; intros [|b c2] P1 P2 Hpre;
    try done; simpl in P1, P2.
  - apply andb_prop in P2 as [Hb _]. exfalso.
    change ("" +:+ ?s) with s in Hpre.
    rewrite append_cons, prefix_cons in Hpre.
    destruct (ascii_dec "_" b) as [<-|]; [|done].
    discriminate Hb.
  - apply andb_prop in P1 as [Ha _]. exfalso.
    change ("" +:+ ?s) with s in Hpre.
    rewrite append_cons, prefix_cons in Hpre.
    destruct (ascii_dec a "_") as [->|]; [|done].
    discriminate Ha.
  - apply andb_prop in P1 as [_ P1]. apply andb_prop in P2 as [_ P2].
    rewrite !append_cons, prefix_cons in Hpre.
    destruct (ascii_dec a b) as [->|]; [|done].
    f_equal. by apply IH.
Qed.

(** X11: for a currency symbol with no wildcard in it, the listing
    of the currency finds every partition file of that currency that
    is in the directory, and no partition file of another currency,
    as long as neither symbol has an underscore. *)
Theorem glob_separates_currencies currency other d directory :
  Path.literal currency = true →
  plain_symbol currency = true → plain_symbol other = true →
  currency ≠ other →
  (partition_name currency d ∈ glob currency directory ↔
   is_Some (directory !! partition_name currency d)) ∧
  partition_name other d ∉ glob currency directory.
Proof.
  intros _ P1 P2 Hne. unfold glob. split.
  - rewrite list_elem_of_filter, partition_name_matches.
    rewrite list_elem_of_In, in_map_iff. split.
    + intros [_ [[name f] [Hname Hin]]]. simpl in Hname. subst name.
      apply list_elem_of_In, elem_of_map_to_list in Hin. eauto.
    + intros [f Hf]. split; [done|]. exists (partition_name currency d, f).
      split; [done|]. by apply list_elem_of_In, elem_of_map_to_list.
  - rewrite list_elem_of_filter. intros [Hmatch _].
    unfold Path.matches in Hmatch. apply andb_prop in Hmatch as [Hpre _].
    apply Hne. unfold partition_name in Hpre.
    change (currency +:+ "_options_")
      with (currency +:+ String "_" "options_") in Hpre.
    change (other +:+ "_options_" +:+ ?r)
      with (other +:+ String "_" ("options_" +:+ r)) in Hpre.
    by apply (prefix_plain_symbols _ _ _ _ P1 P2 Hpre).
Qed.

Lemma glob_separates_currencies_witness :
  ("BTC_options_20240115.parquet" ∈ glob "BTC" (files world_march_first) ↔
   is_Some (files world_march_first !! "BTC_options_20240115.parquet")) ∧
  "ETH_options_20240115.parquet" ∉ glob "BTC" (files world_march_first).
Proof.
  apply (glob_separates_currencies "BTC" "ETH" jan15
           (files world_march_first));
    [reflexivity | reflexivity | reflexivity | discriminate].
Defined.

End PartitionNames.

(** ** What a save and a cycle keep *)

Section Keeping.

Variable currency : string.

Lemma save_to_parquet_keeps_rows df w name rows :
  files w !! name = Some (Parquet rows) →
  ∃ more,
    files (snd (save_to_parquet currency df w)) !! name
      = Some (Parquet (rows ++ more)) ∧
    (more = [] ∨ (name = target currency w ∧ more = df)).
Proof.
  intros Hfile.
  destruct (save_to_parquet_writes_merged currency df w) as [-> | ->].
  - exists []. rewrite app_nil_r. auto.
  - destruct (decide (name = target currency w)) as [->|Hne].
    + exists df. rewrite lookup_insert_eq. unfold rows_of.
      unfold target in Hfile. rewrite Hfile. auto.
    + exists []. rewrite lookup_insert_ne, app_nil_r by done. auto.
Qed.

(** X12: saving never loses a stored row: a file that held rows holds
    them still after any call, in the same order and at the front;
    what follows them is nothing, or the batch when the file is the
    partition of the day. *)
Theorem save_to_parquet_never_loses_rows df w name rows :
  files w !! name = Some (Parquet rows) →
  ∃ more,
    files (snd (save_to_parquet currency df w)) !! name
      = Some (Parquet (rows ++ more)) ∧
    (more = [] ∨ (name = target currency w ∧ more = df)).
Proof. apply save_to_parquet_keeps_rows. Qed.

Lemma cycle_unfold w :
  cycle currency w =
  match collect_options_data currency w with
  | (Ok df, w1) => save_to_parquet currency df w1
  | (Raise e, w1) => (Raise e, w1)
  end.
Proof.
  unfold cycle, bind. by destruct (collect_options_data currency w) as [[]].
Qed.

(** X13: a whole cycle never loses a stored row either, whatever
    upstream answers and whether the cycle returns or raises: a file
    that held rows before the cycle holds them after it, in the same
    order and at the front. *)
Theorem cycle_never_loses_rows w name rows :
  files w !! name = Some (Parquet rows) →
  ∃ more,
    files (snd (cycle currency w)) !! name = Some (Parquet (rows ++ more)).
Proof.
  intros Hfile. rewrite cycle_unfold.
  pose proof (collect_options_data_keeps_files currency w) as Hkeep.
  destruct (collect_options_data currency w) as [[df|e] w1]; simpl in Hkeep.
  - rewrite <- Hkeep in Hfile.
    destruct (save_to_parquet_keeps_rows df w1 name rows Hfile)
      as (more & Hmore & _).
    eauto.
  - exists []. simpl. by rewrite Hkeep, app_nil_r.
Qed.

(** X14: a cycle whose discovery fails, or finds no instrument, saves
    nothing and raises nothing: it makes the one discovery request,
    returns no path and leaves the directory as it was. *)
Theorem cycle_without_instruments w :
  match result_of (remote w (sent w)
                     (GetInstruments currency "option" "false")) with
  | Ok found => found
  | Raise _ => PList []
  end = PList [] →
  fst (cycle currency w) = Ok None ∧
  files (snd (cycle currency w)) = files w ∧
  sent (snd (cycle currency w)) = S (sent w).
Proof.
  intros Hnone.
  unfold cycle, collect_options_data, get_instruments, requests_get, print,
    emit, lift, bind. simpl.
  destruct (result_of _) as [found|e]; simpl.
  - subst found. simpl. done.
  - done.
Qed.

End Keeping.

Section KeepingWitnesses.

Lemma save_to_parquet_never_loses_rows_witness :
  ∃ more,
    files (snd (save_to_parquet "BTC" [sample_row "X" jan15] world_three_days))
      !! "BTC_options_20240115.parquet"
      = Some (Parquet ([sample_row "B" jan15] ++ more)) ∧
    (more = [] ∨
     ("BTC_options_20240115.parquet" = target "BTC" world_three_days ∧
      more = [sample_row "X" jan15])).
Proof.
  apply (save_to_parquet_never_loses_rows "BTC" [sample_row "X" jan15]
           world_three_days "BTC_options_20240115.parquet"
           [sample_row "B" jan15]).
  vm_compute. reflexivity.
Defined.

Lemma cycle_never_loses_rows_witness :
  ∃ more,
    files (snd (cycle "BTC" world_three_days))
      !! "BTC_options_20240114.parquet"
      = Some (Parquet ([sample_row "A" jan14] ++ more)).
Proof.
  apply (cycle_never_loses_rows "BTC" world_three_days
           "BTC_options_20240114.parquet" [sample_row "A" jan14]).
  vm_compute. reflexivity.
Defined.

Lemma cycle_without_instruments_witness :
  fst (cycle "BTC" world_offline) = Ok None ∧
  files (snd (cycle "BTC" world_offline)) = files world_offline ∧
  sent (snd (cycle "BTC" world_offline)) = 1.
Proof.
  apply (cycle_without_instruments "BTC" world_offline). reflexivity.
Defined.

End KeepingWitnesses.

(** ** Loading: files that cannot be read, files with other names *)

Section LoadEdges.

Variable currency : string.

Lemma load_loop_in_range start_date end_date ds :
  ∀ dfs w,
    Forall (fun d => Date.four_digit_year d = true) ds →
    Forall (fun d => in_range start_date end_date d = true →
                     readable currency (files w) d = true) ds →
    ∃ w',
      load_loop start_date end_date (map (partition_name currency) ds) dfs w
      = (Ok (dfs ++ map (rows_of currency (files w))
                      (filter (fun d => in_range start_date end_date d = true)
                              ds)),
         w') ∧
      files w' = files w.
Proof.
  induction ds as [|d ds IH]; intros dfs w Hvalid Hread.
  - exists w. simpl. by rewrite app_nil_r.
  - apply Forall_cons in Hvalid as [Hd Hvalid].
    apply Forall_cons in Hread as [Hrd Hread].
    simpl. unfold bind, lift. rewrite (out_of_range_partition _ _ _ _ Hd).
    destruct (in_range start_date end_date d) eqn:Hin; simpl.
    + rewrite filter_cons_True by done. specialize (Hrd eq_refl).
      unfold read_parquet, readable, rows_of in *.
      destruct (files w !! partition_name currency d) as [[rows|]|] eqn:Hfile;
        try discriminate Hrd.
      simpl. set (w1 := World _ _ _ _ _ _ _).
      destruct (IH (dfs ++ [rows]) w1 Hvalid Hread) as (w' & Hloop & Hfiles).
      exists w'. rewrite Hloop. simpl. rewrite Hfile, <- app_assoc. done.
    + rewrite filter_cons_False by (by rewrite Hin).
      apply IH; done.
Qed.

Lemma load_loop_unreadable start_date end_date ds :
  ∀ dfs w,
    Forall (fun d => Date.four_digit_year d = true) ds →
    Exists (fun d => in_range start_date end_date d = true ∧
                     readable currency (files w) d = false) ds →
    ∃ w',
      load_loop start_date end_date (map (partition_name currency) ds) dfs w
      = (Raise StorageError, w').
Proof.
  induction ds as [|d ds IH]; intros dfs w Hvalid Hbad.
  - by apply Exists_nil in Hbad.
  - apply Forall_cons in Hvalid as [Hd Hvalid].
    simpl. unfold bind, lift. rewrite (out_of_range_partition _ _ _ _ Hd).
    destruct (in_range start_date end_date d) eqn:Hin; simpl.
    + unfold read_parquet.
      destruct (files w !! partition_name currency d) as [[rows|]|] eqn:Hfile;
        simpl; eauto.
      apply Exists_cons in Hbad as [[_ Hunread] | Hbad].
      { unfold readable in Hunread. by rewrite Hfile in Hunread. }
      set (w1 := World _ _ _ _ _ _ _). by apply (IH _ w1).
    + apply Exists_cons in Hbad as [[Hyes _] | Hbad]; [congruence|].
      by apply IH.
Qed.

Lemma load_data_in_range start_date end_date ds w :
  Forall (fun d => Date.four_digit_year d = true) ds →
  StronglySorted day_lt ds →
  glob currency (files w) ≡ₚ map (partition_name currency) ds →
  Forall (fun d => in_range start_date end_date d = true →
                   readable currency (files w) d = true) ds →
  fst (load_data currency start_date end_date w)
  = Ok (concat (map (rows_of currency (files w))
                  (filter (fun d => in_range start_date end_date d = true)
                          ds))).
Proof.
  intros Hvalid Hsorted Hglob Hread. unfold load_data, bind.
  rewrite (glob_sorted_partitions currency ds w Hvalid Hsorted Hglob).
  destruct ds as [|d ds]; [done|].
  change (map (partition_name currency) (d :: ds))
    with (partition_name currency d :: map (partition_name currency) ds)
    at 1.
  cbv beta iota.
  change (partition_name currency d :: map (partition_name currency) ds)
    with (map (partition_name currency) (d :: ds)).
  destruct (load_loop_in_range start_date end_date (d :: ds) [] w
              Hvalid Hread) as (w' & -> & _).
  rewrite app_nil_l.
  by destruct (map _ (filter _ _)).
Qed.

(** X15: a partition outside the range is never opened: loading with a
    range returns the rows of the partitions that pass the date test,
    in the order of the days, as soon as those can be read, even when
    a file outside the range cannot. *)
Theorem load_data_skips_unread_partitions start_date end_date ds w :
  Path.literal currency = true →
  Forall (fun d => Date.four_digit_year d = true) ds →
  StronglySorted day_lt ds →
  glob currency (files w) ≡ₚ map (partition_name currency) ds →
  Forall (fun d => in_range start_date end_date d = true →
                   readable currency (files w) d = true) ds →
  fst (load_data currency start_date end_date w)
  = Ok (concat (map (rows_of currency (files w))
                  (filter (fun d => in_range start_date end_date d = true)
                          ds))).
Proof. intros _. apply load_data_in_range. Qed.

(** X16: one partition within the range that cannot be read makes the
    whole load raise the storage error: no row is returned, not even
    those of the partitions read before it. *)
Theorem load_data_fails_on_unreadable_partition start_date end_date ds w :
  Path.literal currency = true →
  Forall (fun d => Date.four_digit_year d = true) ds →
  StronglySorted day_lt ds →
  glob currency (files w) ≡ₚ map (partition_name currency) ds →
  Exists (fun d => in_range start_date end_date d = true ∧
                   readable currency (files w) d = false) ds →
  fst (load_data currency start_date end_date w) = Raise StorageError.
Proof.
  intros _ Hvalid Hsorted Hglob Hbad. unfold load_data, bind.
  rewrite (glob_sorted_partitions currency ds w Hvalid Hsorted Hglob).
  destruct ds as [|d ds]; [by apply Exists_nil in Hbad|].
  change (map (partition_name currency) (d :: ds))
    with (partition_name currency d :: map (partition_name currency) ds)
    at 1.
  cbv beta iota.
  change (partition_name currency d :: map (partition_name currency) ds)
    with (map (partition_name currency) (d :: ds)).
  by destruct (load_loop_unreadable start_date end_date (d :: ds) [] w
                 Hvalid Hbad) as (w' & ->).
Qed.

Lemma load_loop_unranged names :
  ∀ dfs w,
    Forall (fun name => readable_at (files w) name = true) names →
    ∃ w',
      load_loop None None names dfs w
      = (Ok (dfs ++ map (rows_at (files w)) names), w') ∧
      files w' = files w.
Proof.
  induction names as [|name names IH]; intros dfs w Hread.
  - exists w. simpl. by rewrite app_nil_r.
  - apply Forall_cons in Hread as [Hrd Hread].
    simpl. unfold bind, lift. simpl.
    unfold read_parquet, readable_at, rows_at in *.
    destruct (files w !! name) as [[rows|]|] eqn:Hfile; try discriminate Hrd.
    simpl. set (w1 := World _ _ _ _ _ _ _).
    destruct (IH (dfs ++ [rows]) w1 Hread) as (w' & Hloop & Hfiles).
    exists w'. rewrite Hloop. simpl. by rewrite <- app_assoc.
Qed.

Lemma strptime_raises_value_error s e :
  Date.strptime_Ymd s = Raise e → e = ValueError.
Proof.
  unfold Date.strptime_Ymd.
  repeat (case_match; try congruence).
Qed.

Lemma load_loop_stray start_date end_date names :
  ∀ dfs w,
    (start_date, end_date) ≠ (None, None) →
    Forall (fun name => readable_at (files w) name = true) names →
    Exists (fun name =>
              Date.strptime_Ymd (Path.last_field (Path.stem name))
              = Raise ValueError) names →
    ∃ w',
      load_loop start_date end_date names dfs w = (Raise ValueError, w').
Proof.
  induction names as [|name names IH]; intros dfs w Hrange Hread Hstray.
  - by apply Exists_nil in Hstray.
  - apply Forall_cons in Hread as [Hrd Hread].
    simpl. unfold bind, lift.
    destruct (Date.strptime_Ymd (Path.last_field (Path.stem name)))
      as [file_date|e] eqn:Hparse.
    + assert (∃ skip, out_of_range start_date end_date name = Ok skip)
        as [skip ->].
      { unfold out_of_range. rewrite Hparse.
        destruct start_date as [s|], end_date as [e|]; eauto;
          destruct (Date.ltb file_date _); eauto. }
      apply Exists_cons in Hstray as [Hhead | Hstray]; [congruence|].
      destruct skip.
      * by apply IH.
      * unfold read_parquet, readable_at in *.
        destruct (files w !! name) as [[rows|]|]; try discriminate Hrd.
        simpl. set (w1 := World _ _ _ _ _ _ _). by apply (IH _ w1).
    + assert (out_of_range start_date end_date name = Raise e) as ->.
      { unfold out_of_range. rewrite Hparse.
        by destruct start_date as [s|], end_date as [e'|]. }
      apply strptime_raises_value_error in Hparse as ->. eauto.
Qed.

End LoadEdges.

Section LoadEdgeProperties.

Lemma sorted_glob_elem currency w name :
  name ∈ merge_sort String.le (glob currency (files w)) ↔
  name ∈ glob currency (files w).
Proof. by rewrite merge_sort_Permutation. Qed.

(** X17: for a currency symbol with no wildcard in it and file names
    in plain ASCII, loading without a range reads every file the
    listing finds, whatever follows the currency in its name, in the
    order of the names as strings, and returns their rows one file
    after the other. *)
Theorem unranged_load_reads_every_match currency w :
  Path.literal currency = true →
  Forall (fun name => Path.ascii_only name = true)
         (glob currency (files w)) →
  Forall (fun name => readable_at (files w) name = true)
         (glob currency (files w)) →
  fst (load_data currency None None w)
  = Ok (concat (map (rows_at (files w))
                  (merge_sort String.le (glob currency (files w))))).
Proof.
  intros _ _ Hread. unfold load_data, bind, glob_sorted. simpl.
  assert (Hsorted : Forall (fun name => readable_at (files w) name = true)
                      (merge_sort String.le (glob currency (files w)))).
  { rewrite Forall_forall in Hread |- *.
    intros name Hname%sorted_glob_elem. by apply Hread. }
  destruct (merge_sort String.le (glob currency (files w)))
    as [|name names] eqn:Hnames; [done|].
  destruct (load_loop_unranged (name :: names) [] w Hsorted)
    as (w' & Hloop & _).
  simpl in Hloop. unfold bind, lift in Hloop. simpl in Hloop.
  simpl. unfold bind, lift. simpl. rewrite Hloop. done.
Qed.

Lemma unranged_load_reads_every_match_witness :
  fst (load_data "BTC" None None world_with_stray)
  = Ok (concat (map (rows_at (files world_with_stray))
                  (merge_sort String.le
                     (glob "BTC" (files world_with_stray))))).
Proof.
  apply (unranged_load_reads_every_match "BTC" world_with_stray).
  - reflexivity.
  - compute_done.
  - compute_done.
Defined.

(** X18: for a currency symbol with no wildcard in it, and with a
    start or an end given, a file the listing finds whose name is
    plain ASCII and does not end in a date makes the load raise
    [ValueError], although every file can be read: nothing is
    returned. *)
Theorem stray_file_breaks_ranged_load currency start_date end_date w :
  Path.literal currency = true →
  (start_date, end_date) ≠ (None, None) →
  Forall (fun name => readable_at (files w) name = true)
         (glob currency (files w)) →
  Exists (fun name =>
            Path.ascii_only name = true ∧
            Date.strptime_Ymd (Path.last_field (Path.stem name))
            = Raise ValueError)
         (glob currency (files w)) →
  fst (load_data currency start_date end_date w) = Raise ValueError.
Proof.
  intros _ Hrange Hread Hstray. unfold load_data, bind, glob_sorted. simpl.
  assert (Hsorted : Forall (fun name => readable_at (files w) name = true)
                      (merge_sort String.le (glob currency (files w)))).
  { rewrite Forall_forall in Hread |- *.
    intros name Hname%sorted_glob_elem. by apply Hread. }
  assert (Hsome : Exists (fun name =>
                     Date.strptime_Ymd (Path.last_field (Path.stem name))
                     = Raise ValueError)
                    (merge_sort String.le (glob currency (files w)))).
  { rewrite Exists_exists in Hstray |- *.
    destruct Hstray as (name & Hname & _ & Hparse).
    exists name. by rewrite sorted_glob_elem. }
  destruct (merge_sort String.le (glob currency (files w)))
    as [|name names] eqn:Hnames; [by apply Exists_nil in Hsome|].
  by destruct (load_loop_stray start_date end_date (name :: names) [] w
                 Hrange Hsorted Hsome) as (w' & ->).
Qed.

Lemma stray_file_breaks_ranged_load_witness :
  fst (load_data "BTC" (Some jan14) None world_with_stray) = Raise ValueError.
Proof.
  apply (stray_file_breaks_ranged_load "BTC" (Some jan14) None
           world_with_stray).
  - reflexivity.
  - discriminate.
  - compute_done.
  - apply Exists_exists. exists "BTC_options_backup.parquet".
    split; [compute_done | split; reflexivity].
Defined.

Lemma load_data_skips_unread_partitions_witness :
  fst (load_data "BTC" (Some jan15) None world_old_unreadable)
  = Ok [sample_row "B" jan15].
Proof.
  apply (load_data_skips_unread_partitions "BTC" (Some jan15) None
           [jan14; jan15] world_old_unreadable).
  - reflexivity.
  - repeat constructor.
  - repeat constructor.
  - compute_done.
  - repeat constructor; intros; try discriminate; reflexivity.
Defined.

Lemma load_data_fails_on_unreadable_partition_witness :
  fst (load_data "BTC" None None world_old_unreadable) = Raise StorageError.
Proof.
  apply (load_data_fails_on_unreadable_partition "BTC" None None
           [jan14; jan15] world_old_unreadable).
  - reflexivity.
  - repeat constructor.
  - repeat constructor.
  - compute_done.
  - apply Exists_cons_hd. split; reflexivity.
Defined.

End LoadEdgeProperties.

(** ** Saving, then loading *)

Section SaveThenLoad.

Variable currency : string.









End SaveThenLoad.

Section LoadAfterSave.

Variable currency : string.


End LoadAfterSave.

Section LoadAfterSaveWitness.


End LoadAfterSaveWitness.

(** ** The latest file *)

Section Latest.

Lemma ltb_le (a b : string) : String.ltb a b = true → String.le a b.
Proof.
  unfold String.le, String.ltb, String.leb.
  by destruct (String.compare a b).
Qed.

Lemma not_ltb_le (a b : string) : String.ltb a b = false → String.le b a.
Proof.
  unfold String.le, String.ltb, String.leb.
  rewrite (String.compare_antisym b a).
  by destruct (String.compare a b).
Qed.

Lemma max_from_greatest rest :
  ∀ best,
    max_from best rest ∈ best :: rest ∧
    ∀ y, y ∈ best :: rest → String.le y (max_from best rest).
Proof.
  induction rest as [|x rest IH]; intros best; simpl.
  - split; [constructor|].
    intros y ->%list_elem_of_singleton. reflexivity.
  - destruct (IH (if String.ltb best x then x else best)) as [Hin Hmax].
    split.
    + apply elem_of_cons in Hin as [-> | Hin].
      * destruct (String.ltb best x); [do 2 constructor | constructor].
      * by do 2 constructor.
    + intros y Hy.
      assert (Hstep : String.le y (if String.ltb best x then x else best)
                      ∨ y ∈ rest).
      { apply elem_of_cons in Hy as [-> | Hy].
        - left. destruct (String.ltb best x) eqn:Hlt;
            [by apply ltb_le | reflexivity].
        - apply elem_of_cons in Hy as [-> | Hy]; [|by right].
          left. destruct (String.ltb best x) eqn:Hlt;
            [reflexivity | by apply not_ltb_le]. }
      destruct Hstep as [Hle | Hrest].
      * etrans; [exact Hle|]. apply Hmax. constructor.
      * apply Hmax. by constructor.
Qed.

(** X20: when the files of the data directory are the partition files
    of one currency, the file the analysis script picks as the latest
    is the partition of the latest day, in whatever order the
    directory lists them. *)
Theorem latest_file_is_latest_day currency ds dmax directory :
  Forall (fun d => Date.four_digit_year d = true) (ds ++ [dmax]) →
  StronglySorted day_lt (ds ++ [dmax]) →
  parquet_files directory ≡ₚ map (partition_name currency) (ds ++ [dmax]) →
  latest_file directory = Some (partition_name currency dmax).
Proof.
  intros Hvalid Hsorted Hfiles. unfold latest_file.
  destruct (parquet_files directory) as [|first rest] eqn:Hlist.
  - symmetry in Hfiles. apply Permutation_nil_r in Hfiles.
    rewrite map_app in Hfiles. by destruct (map _ ds).
  - f_equal.
    destruct (max_from_greatest rest first) as [Hin Hmax].
    assert (Hlast : partition_name currency dmax ∈ first :: rest).
    { rewrite Hfiles, map_app. apply elem_of_app. right. constructor. }
    specialize (Hmax _ Hlast).
    rewrite Hfiles in Hin. apply list_elem_of_In, in_map_iff in Hin.
    destruct Hin as (d & Hname & Hd). rewrite <- Hname in Hmax |- *.
    apply in_app_or in Hd as [Hd | [-> | []]]; [|done].
    exfalso.
    assert (Hlt : day_lt d dmax).
    { apply (StronglySorted_app_1_elem_of _ _ _ _ _ Hsorted);
        [by apply list_elem_of_In | constructor]. }
    rewrite Forall_forall in Hvalid.
    unfold day_lt in Hlt.
    rewrite <- (partition_name_compare currency) in Hlt.
    + unfold String.le, String.leb in Hmax.
      rewrite String.compare_antisym, Hlt in Hmax. done.
    + apply Hvalid, elem_of_app. left. by apply list_elem_of_In.
    + apply Hvalid, elem_of_app. right. constructor.
Qed.

Lemma latest_file_is_latest_day_witness :
  latest_file (files world_three_days) = Some "BTC_options_20240116.parquet".
Proof.
  apply (latest_file_is_latest_day "BTC" [jan14; jan15] jan16
           (files world_three_days)).
  - repeat constructor.
  - repeat constructor.
  - compute_done.
Defined.

End Latest.

(** ** A range that ends before it starts *)

Section EmptyRange.

Lemma compare_as_items a b :
  Date.compare a b = compare_items (fields a) (fields b).
Proof.
  unfold Date.compare, fields. simpl.
  by destruct (microsecond a ?= microsecond b)%N.
Qed.

Lemma compare_items_no_cycle s :
  ∀ f e,
    length f = length s → length e = length s →
    compare_items f s ≠ Lt → compare_items e f ≠ Lt →
    compare_items e s ≠ Lt.
Proof.
  induction s as [|xs s IH]; intros [|xf f] [|xe e] Hf He Hsf Hfe;
    simpl in Hf, He; try discriminate Hf; try discriminate He; [done|].
  simpl in *.
  destruct (N.compare_spec xf xs) as [Efs|Lfs|Gfs]; simpl in Hsf; [| done |];
    destruct (N.compare_spec xe xf) as [Eef|Lef|Gef]; simpl in Hfe;
    try done;
    destruct (N.compare_spec xe xs) as [Ees|Les|Ges]; simpl;
    try done; try lia.
  apply (IH f e); congruence.
Qed.

Lemma in_range_empty s e d :
  Date.ltb e s = true → in_range (Some s) (Some e) d = false.
Proof.
  unfold in_range, Date.ltb. rewrite !compare_as_items. intros Hes.
  destruct (compare_items (fields (Date.floor d)) (fields s)) eqn:Hfs;
    try done;
    destruct (compare_items (fields e) (fields (Date.floor d))) eqn:Hef;
    try done; exfalso;
    apply (compare_items_no_cycle (fields s) (fields (Date.floor d))
             (fields e)); try done; try congruence;
    by destruct (compare_items (fields e) (fields s)).
Qed.

(** X21: a range whose end is before its start selects nothing:
    loading returns the empty sequence and raises nothing, and no
    partition file is opened, readable or not. *)
Theorem load_data_empty_range currency s e ds w :
  Path.literal currency = true →
  Forall (fun d => Date.four_digit_year d = true) ds →
  StronglySorted day_lt ds →
  glob currency (files w) ≡ₚ map (partition_name currency) ds →
  Date.ltb e s = true →
  fst (load_data currency (Some s) (Some e) w) = Ok [].
Proof.
  intros _ Hvalid Hsorted Hglob Hes.
  rewrite (load_data_in_range currency (Some s) (Some e) ds w
             Hvalid Hsorted Hglob).
  - f_equal. clear Hvalid Hsorted Hglob.
    induction ds as [|d ds IH]; [done|].
    rewrite filter_cons_False; [done|].
    by rewrite (in_range_empty s e d Hes).
  - apply Forall_forall. intros d _ Hin.
    by rewrite (in_range_empty s e d Hes) in Hin.
Qed.

Lemma load_data_empty_range_witness :
  fst (load_data "BTC" (Some jan16) (Some jan14) world_old_unreadable)
  = Ok [].
Proof.
  apply (load_data_empty_range "BTC" jan16 jan14 [jan14; jan15]
           world_old_unreadable).
  - reflexivity.
  - repeat constructor.
  - repeat constructor.
  - compute_done.
  - reflexivity.
Defined.

End EmptyRange.

(** ** A discovery answer that is not a list *)

Section Discovered.

(** X22: when the [result] of the discovery answer is not a list (and
    not an empty text or an empty object), the cycle raises
    [TypeError] right after discovery: no order book is fetched and no
    record is returned. *)
Theorem collect_raises_on_non_list currency found w :
  result_of (remote w (sent w) (GetInstruments currency "option" "false"))
    = Ok found →
  (∀ items, found ≠ PList items) →
  found ≠ PStr "" → found ≠ PDict [] →
  fst (collect_options_data currency w) = Raise TypeError ∧
  sent (snd (collect_options_data currency w)) = S (sent w).
Proof.
  intros Hfound Hlist Hstr Hdict.
  unfold collect_options_data, get_instruments, requests_get, print, emit,
    lift, bind. simpl. rewrite Hfound. simpl.
  destruct found as [| | | |text|items|kvs]; simpl; try done.
  - destruct text as [|c text]; [done|]. simpl. done.
  - by destruct (Hlist items).
  - destruct kvs as [|[key value] kvs]; [done|]. simpl. done.
Qed.

Lemma collect_raises_on_non_list_witness :
  fst (collect_options_data "BTC" world_null_result) = Raise TypeError ∧
  sent (snd (collect_options_data "BTC" world_null_result)) = 1.
Proof.
  apply (collect_raises_on_non_list "BTC" PNone world_null_result);
    [reflexivity | discriminate | discriminate | discriminate].
Defined.

End Discovered.
